(** * TrimX Python integration: a shallow embedding of [TrimXProcessor]

    The embedded program is [examples/trimx_python_example.py].  Its class
    [TrimXProcessor] drives an external command line tool: it builds argument
    lists, spawns the tool, reads exit statuses and JSON documents, and takes
    decisions on them.

    - Python floats are IEEE 754 binary64 numbers: Rocq's primitive [float].
    - Values that come out of [json.loads] are dynamically typed: [pyobj].
    - Everything outside the interpreter (the spawned process, [json.loads],
      [os.makedirs], [os.path.join]) is an environment [Env]; the program is
      a function of it.
    - Effects are a log of [event]s threaded through a state and exception
      monad [M]; the log is also the history the environment answers from. *)

From Stdlib Require Import ZArith List String Bool Lia Floats DecimalString.
Import ListNotations.

Local Open Scope string_scope.
Local Open Scope list_scope.

(** A decimal literal such as [18.2] stands for the nearest binary64
    number, as it does in Python. *)
Set Warnings "-register-all,-inexact-float".

(** ** Python values *)

(** The values [json.loads] builds, which are also the values the program
    computes with: [None], [bool], [int], [float], [str], [list], and [dict]
    with string keys (kept in insertion order). *)
Inductive pyobj : Type :=
| PyNone
| PyBool (b : bool)
| PyInt (n : Z)
| PyFloat (x : float)
| PyStr (s : string)
| PyList (items : list pyobj)
| PyDict (fields : list (string * pyobj)).

(** Exceptions the embedded code can raise.  [CalledProcessError] carries
    the attributes the handlers read. *)
Inductive exn : Type :=
| CalledProcessError (returncode : Z) (stderr : pyobj)
| FileNotFoundError
| OSError
| JSONDecodeError
| AttributeError
| TypeError
| KeyError
| ValueError
| OverflowError.

Inductive result (A : Type) : Type :=
| Ok (a : A)
| Raise (e : exn).

Arguments Ok {A} a.
Arguments Raise {A} e.

(** A Python [str] that the program builds.  Strings given to the program
    are literal; [str(v)] and [format(v, ".2f")] are kept as they are
    written, since their digits are the interpreter's business. *)
Inductive piece : Type :=
| Lit (s : string)
| Str (v : pyobj)
| Fmt2f (v : pyobj).

(** ** Effects *)

Inductive event : Type :=
| Printed (msg : list piece)
| Ran (cmd : list piece) (capture_output : bool)
| MadeDirs (path : string).

(** How a spawned process ends: it exits with a status and its two output
    streams, or the executable is not there (the one failure to start that
    the program names). *)
Inductive completion : Type :=
| Exited (returncode : Z) (out err : string)
| NotFound.

Record Env : Type := {
  (** [subprocess.run(cmd, capture_output=c, text=True)]: the answer may
      depend on all that happened before. *)
  spawn : list event -> list piece -> bool -> completion;
  (** [json.loads]; [None] is a [JSONDecodeError]. *)
  json_loads : string -> option pyobj;
  (** [os.makedirs(path, exist_ok=True)] succeeded. *)
  makedirs_ok : list event -> string -> bool;
  (** [os.path.join] on two components. *)
  path_join : string -> string -> string
}.

Definition M (A : Type) : Type := list event -> result A * list event.

Definition ret {A} (a : A) : M A := fun h => (Ok a, h).

Definition raise {A} (e : exn) : M A := fun h => (Raise e, h).

Definition bind {A B} (c : M A) (k : A -> M B) : M B :=
  fun h => match c h with
           | (Ok a, h') => k a h'
           | (Raise e, h') => (Raise e, h')
           end.

(** [try: c  except ...: handler e]; a handler that does not match an
    exception raises it again. *)
Definition try_except {A} (c : M A) (handler : exn -> M A) : M A :=
  fun h => match c h with
           | (Ok a, h') => (Ok a, h')
           | (Raise e, h') => handler e h'
           end.

Definition lift {A} (r : result A) : M A := fun h => (r, h).

Definition emit (e : event) : M unit := fun h => (Ok tt, h ++ [e]).

Definition print (msg : list piece) : M unit := emit (Printed msg).

Declare Scope py_scope.
Delimit Scope py_scope with py.
Notation "x <- c ;; k" := (bind c (fun x => k))
  (at level 61, c at next level, right associativity) : py_scope.
Notation "c ;; k" := (bind c (fun _ => k))
  (at level 61, right associativity) : py_scope.
Local Open Scope py_scope.

(** ** Operations on Python values *)

Fixpoint dict_lookup {V} (key : string) (d : list (string * V)) : option V :=
  match d with
  | [] => None
  | (k, v) :: d' => if String.eqb k key then Some v else dict_lookup key d'
  end.

(** [o.get(key, default)] *)
Definition py_get (o : pyobj) (key : string) (default : pyobj) : result pyobj :=
  match o with
  | PyDict d =>
      Ok (match dict_lookup key d with
          | Some v => v
          | None => default
          end)
  | _ => Raise AttributeError
  end.

(** [o[key]] with a string key *)
Definition py_getitem (o : pyobj) (key : string) : result pyobj :=
  match o with
  | PyDict d =>
      match dict_lookup key d with
      | Some v => Ok v
      | None => Raise KeyError
      end
  | _ => Raise TypeError
  end.

Fixpoint chars (s : string) : list pyobj :=
  match s with
  | EmptyString => []
  | String c s' => PyStr (String c EmptyString) :: chars s'
  end.

(** The items a [for] loop or [min] draws from [o]. *)
Definition py_iter (o : pyobj) : result (list pyobj) :=
  match o with
  | PyList l => Ok l
  | PyStr s => Ok (chars s)
  | PyDict d => Ok (map (fun kv => PyStr (fst kv)) d)
  | _ => Raise TypeError
  end.

(** Truth value of an object, as [if o:] and [not o] test it. *)
Definition truthy (o : pyobj) : bool :=
  match o with
  | PyNone => false
  | PyBool b => b
  | PyInt n => negb (n =? 0)%Z
  | PyFloat x => negb (x =? 0)%float
  | PyStr s => negb (String.eqb s "")
  | PyList l => match l with [] => false | _ => true end
  | PyDict d => match d with [] => false | _ => true end
  end.

(** [o == s] for a string literal [s] *)
Definition py_eq_str (o : pyobj) (s : string) : bool :=
  match o with
  | PyStr t => String.eqb t s
  | _ => false
  end.

(** The binary64 nearest to an integer (ties to even), as the interpreter
    converts an [int] operand of a float operation; too large an integer
    is an [OverflowError]. *)
Definition float_of_int (n : Z) : result float :=
  let x := SF2Prim (binary_normalize prec emax n 0 false) in
  if is_infinity x then Raise OverflowError else Ok x.

(** The float a number stands for in mixed arithmetic with a float. *)
Definition py_number (o : pyobj) : result float :=
  match o with
  | PyFloat x => Ok x
  | PyInt n => float_of_int n
  | PyBool b => Ok (if b then 1 else 0)%float
  | _ => Raise TypeError
  end.

(** [o - d] where [d] is a float *)
Definition py_sub_float (o : pyobj) (d : float) : result float :=
  match py_number o with
  | Ok x => Ok (x - d)%float
  | Raise e => Raise e
  end.

(** [sep.join(parts)] *)
Fixpoint join (sep : piece) (parts : list piece) : list piece :=
  match parts with
  | [] => []
  | [p] => [p]
  | p :: rest => p :: sep :: join sep rest
  end.

(** ** Data classes *)

Record VideoInfo : Type := {
  path : string;
  duration : pyobj;
  width : pyobj;
  height : pyobj;
  frame_rate : pyobj;
  bit_rate : pyobj;
  file_size : pyobj;
  video_streams : list pyobj;
  audio_streams : list pyobj
}.

Record ClipSegment : Type := {
  start_time : float;
  end_time : float;
  name : string;
  description : option string
}.

Record TrimXProcessor : Type := {
  trimx_path : string;
  temp_dir : option string
}.

Record CompletedProcess : Type := {
  stdout : pyobj
}.

(** The results dictionary of a batch: [str] keys, [bool] values, in
    insertion order. *)
Definition results_dict : Type := list (string * bool).

(** [d[key] = v]: a key that is there keeps its place and takes the new
    value; a new key goes last. *)
Fixpoint dict_set (key : string) (v : bool) (d : results_dict) : results_dict :=
  match d with
  | [] => [(key, v)]
  | (k, v') :: d' =>
      if String.eqb k key then (k, v) :: d' else (k, v') :: dict_set key v d'
  end.

Definition keys (d : results_dict) : list string := map fst d.

(** ** The processor *)

Section Processor.

Variable env : Env.

(** [subprocess.run(cmd, capture_output=c, text=True, check=True)]: with
    [check=True] a status other than 0 is a [CalledProcessError]; the
    output attributes are [None] unless captured. *)
Definition subprocess_run (cmd : list piece) (capture_output : bool)
  : M CompletedProcess :=
  fun h =>
    let captured (s : string) := if capture_output then PyStr s else PyNone in
    match env.(spawn) h cmd capture_output with
    | Exited rc out err =>
        if (rc =? 0)%Z
        then (Ok {| stdout := captured out |}, h ++ [Ran cmd capture_output])
        else (Raise (CalledProcessError rc (captured err)),
              h ++ [Ran cmd capture_output])
    | NotFound => (Raise FileNotFoundError, h ++ [Ran cmd capture_output])
    end.

Definition run_command (self : TrimXProcessor) (args : list piece)
    (capture_output : bool) : M CompletedProcess :=
  let cmd := [Lit self.(trimx_path)] ++ args in
  try_except
    (result <- subprocess_run cmd capture_output ;;
     ret result)
    (fun e =>
       match e with
       | CalledProcessError returncode stderr =>
           print (Lit "Error running command: " :: join (Lit " ") cmd) ;;
           print [Lit "Return code: "; Str (PyInt returncode)] ;;
           print [Lit "Error output: "; Str stderr] ;;
           raise e
       | FileNotFoundError =>
           print [Lit "TrimX CLI not found at: "; Lit self.(trimx_path)] ;;
           print [Lit "Please ensure TrimX is installed and in your PATH"] ;;
           raise e
       | _ => raise e
       end).

(** An [Optional[int]] argument as the object it is. *)
Definition optional_int (o : option Z) : pyobj :=
  match o with
  | Some n => PyInt n
  | None => PyNone
  end.

Definition extract_clip (self : TrimXProcessor) (video_path : string)
    (start_time end_time : float) (output_path mode : string)
    (quality_crf : option Z) : M bool :=
  print [Lit "Extracting clip: "; Str (PyFloat start_time); Lit "s to ";
         Str (PyFloat end_time); Lit "s"] ;;
  let args :=
    [Lit "clip"; Lit video_path;
     Lit "--start"; Str (PyFloat start_time);
     Lit "--end"; Str (PyFloat end_time);
     Lit "--mode"; Lit mode;
     Lit "--output"; Lit output_path;
     Lit "--overwrite"; Lit "yes"] in
  let args :=
    if truthy (optional_int quality_crf)
    then args ++ [Lit "--quality-crf"; Str (optional_int quality_crf)]
    else args in
  try_except
    (run_command self args false ;;
     ret true)
    (fun e =>
       match e with
       | CalledProcessError _ _ => ret false
       | _ => raise e
       end).

Definition verify_clip (self : TrimXProcessor) (clip_path : string)
    (expected_start expected_end tolerance : float) : M bool :=
  print [Lit "Verifying clip: "; Lit clip_path] ;;
  try_except
    (run_command self
       [Lit "verify"; Lit clip_path;
        Lit "--expected-start"; Str (PyFloat expected_start);
        Lit "--expected-end"; Str (PyFloat expected_end);
        Lit "--tolerance"; Str (PyFloat tolerance)]
       false ;;
     ret true)
    (fun e =>
       match e with
       | CalledProcessError _ _ => ret false
       | _ => raise e
       end).

(** The default of [verify_clip]'s [tolerance]. *)
Definition default_verify_tolerance : float := 0.5%float.

(** [os.makedirs(path, exist_ok=True)] *)
Definition os_makedirs (path : string) : M unit :=
  fun h =>
    if env.(makedirs_ok) h path
    then (Ok tt, h ++ [MadeDirs path])
    else (Raise OSError, h ++ [MadeDirs path]).

(** The [for i, segment in enumerate(segments)] loop of
    [batch_extract_clips], from index [i], with [total = len(segments)]. *)
Fixpoint batch_loop (self : TrimXProcessor)
    (video_path output_dir mode : string)
    (total : nat) (i : nat) (segments : list ClipSegment)
    (results : results_dict) : M results_dict :=
  match segments with
  | [] => ret results
  | segment :: rest =>
      let output_path :=
        env.(path_join) output_dir (segment.(name) ++ ".mp4") in
      print [Lit "Processing segment "; Str (PyInt (Z.of_nat i + 1)); Lit "/";
             Str (PyInt (Z.of_nat total)); Lit ": "; Lit segment.(name)] ;;
      success <- extract_clip self video_path segment.(start_time)
                   segment.(end_time) output_path mode None ;;
      results <-
        (if success : bool then
           verify_success <- verify_clip self output_path segment.(start_time)
                               segment.(end_time) default_verify_tolerance ;;
           ret (dict_set segment.(name) verify_success results)
         else
           ret (dict_set segment.(name) false results)) ;;
      batch_loop self video_path output_dir mode total (S i) rest results
  end.

Definition batch_extract_clips (self : TrimXProcessor) (video_path : string)
    (segments : list ClipSegment) (output_dir mode : string) : M results_dict :=
  print [Lit "Batch extracting "; Str (PyInt (Z.of_nat (List.length segments)));
         Lit " clips from "; Lit video_path] ;;
  os_makedirs output_dir ;;
  batch_loop self video_path output_dir mode (List.length segments) 0
    segments [].

(** [json.loads(o)] *)
Definition loads (o : pyobj) : M pyobj :=
  match o with
  | PyStr s =>
      match env.(json_loads) s with
      | Some data => ret data
      | None => raise JSONDecodeError
      end
  | _ => raise TypeError
  end.

(** The [for stream in ...] loop of [inspect_video]. *)
Fixpoint classify_streams (streams : list pyobj)
    (video_streams audio_streams : list pyobj)
  : M (list pyobj * list pyobj) :=
  match streams with
  | [] => ret (video_streams, audio_streams)
  | stream :: rest =>
      type <- lift (py_get stream "type" PyNone) ;;
      if py_eq_str type "video" then
        classify_streams rest (video_streams ++ [stream]) audio_streams
      else
        type <- lift (py_get stream "type" PyNone) ;;
        if py_eq_str type "audio" then
          classify_streams rest video_streams (audio_streams ++ [stream])
        else
          classify_streams rest video_streams audio_streams
  end.

Definition inspect_video (self : TrimXProcessor) (video_path : string)
  : M VideoInfo :=
  print [Lit "Inspecting video: "; Lit video_path] ;;
  result <- run_command self
              [Lit "inspect"; Lit video_path;
               Lit "--format"; Lit "json";
               Lit "--show-streams"]
              true ;;
  data <- loads result.(stdout) ;;
  streams <- lift (py_get data "streams" (PyList [])) ;;
  streams <- lift (py_iter streams) ;;
  streams <- classify_streams streams [] [] ;;
  let video_streams := fst streams in
  let audio_streams := snd streams in
  let primary_video :=
    match video_streams with
    | first :: _ => first
    | [] => PyDict []
    end in
  duration <- lift (py_get data "duration" (PyFloat 0)) ;;
  width <- lift (py_get primary_video "width" (PyInt 0)) ;;
  height <- lift (py_get primary_video "height" (PyInt 0)) ;;
  frame_rate <- lift (py_get primary_video "frame_rate" (PyFloat 0)) ;;
  bit_rate <- lift (py_get data "bit_rate" (PyInt 0)) ;;
  file_size <- lift (py_get data "file_size" (PyInt 0)) ;;
  ret {| path := video_path;
         duration := duration;
         width := width;
         height := height;
         frame_rate := frame_rate;
         bit_rate := bit_rate;
         file_size := file_size;
         video_streams := video_streams;
         audio_streams := audio_streams |}.

Definition analyze_keyframes (self : TrimXProcessor) (video_path : string)
  : M pyobj :=
  print [Lit "Analyzing keyframes: "; Lit video_path] ;;
  result <- run_command self
              [Lit "inspect"; Lit video_path;
               Lit "--show-keyframes";
               Lit "--format"; Lit "json"]
              true ;;
  data <- loads result.(stdout) ;;
  lift (py_get data "keyframes" (PyList [])).

(** The scan of [min(iterable, key=...)] once a first item is held: a later
    item replaces the held one only when its key is strictly smaller. *)
Fixpoint min_scan (key : pyobj -> M float) (items : list pyobj)
    (minitem : pyobj) (minval : float) : M pyobj :=
  match items with
  | [] => ret minitem
  | item :: rest =>
      val <- key item ;;
      if (val <? minval)%float
      then min_scan key rest item val
      else min_scan key rest minitem minval
  end.

(** [min(iterable, key=key)] *)
Definition py_min (iterable : pyobj) (key : pyobj -> M float) : M pyobj :=
  items <- lift (py_iter iterable) ;;
  match items with
  | [] => raise ValueError
  | item :: rest =>
      val <- key item ;;
      min_scan key rest item val
  end.

(** [abs(k["timestamp"] - desired)] *)
Definition timestamp_distance (desired : float) (k : pyobj) : M float :=
  timestamp <- lift (py_getitem k "timestamp") ;;
  difference <- lift (py_sub_float timestamp desired) ;;
  ret (abs difference).

(** [find_optimal_cut_points] from the point where [keyframes] is bound. *)
Definition optimal_cut_points (keyframes : pyobj)
    (desired_start desired_end tolerance : float) : M (pyobj * pyobj) :=
  if negb (truthy keyframes) then
    print [Lit "No keyframes found, using desired times"] ;;
    ret (PyFloat desired_start, PyFloat desired_end)
  else
    start_keyframe <- py_min keyframes (timestamp_distance desired_start) ;;
    end_keyframe <- py_min keyframes (timestamp_distance desired_end) ;;
    distance <- timestamp_distance desired_start start_keyframe ;;
    optimal_start <-
      (if (distance <=? tolerance)%float
       then lift (py_getitem start_keyframe "timestamp")
       else ret (PyFloat desired_start)) ;;
    distance <- timestamp_distance desired_end end_keyframe ;;
    optimal_end <-
      (if (distance <=? tolerance)%float
       then lift (py_getitem end_keyframe "timestamp")
       else ret (PyFloat desired_end)) ;;
    print [Lit "Optimal cut points: "; Fmt2f optimal_start; Lit "s to ";
           Fmt2f optimal_end; Lit "s"] ;;
    ret (optimal_start, optimal_end).

Definition find_optimal_cut_points (self : TrimXProcessor) (video_path : string)
    (desired_start desired_end tolerance : float) : M (pyobj * pyobj) :=
  keyframes <- analyze_keyframes self video_path ;;
  optimal_cut_points keyframes desired_start desired_end tolerance.

(** *** The batch loop seen as outcomes first, dictionary second

    These two are not in the source: they name what one turn of the loop
    stores, so that statements can speak of "the outcome of a segment".
    [batch_loop_outcomes] below shows that the loop stores exactly these. *)

(** One turn of the loop of [batch_extract_clips], up to the assignment to
    [results[segment.name]]: the value that is assigned. *)
Definition segment_outcome (self : TrimXProcessor)
    (video_path output_dir mode : string) (total i : nat)
    (segment : ClipSegment) : M bool :=
  let output_path :=
    env.(path_join) output_dir (segment.(name) ++ ".mp4") in
  print [Lit "Processing segment "; Str (PyInt (Z.of_nat i + 1)); Lit "/";
         Str (PyInt (Z.of_nat total)); Lit ": "; Lit segment.(name)] ;;
  success <- extract_clip self video_path segment.(start_time)
               segment.(end_time) output_path mode None ;;
  if success : bool then
    verify_clip self output_path segment.(start_time) segment.(end_time)
      default_verify_tolerance
  else
    ret false.

Fixpoint batch_outcomes (self : TrimXProcessor)
    (video_path output_dir mode : string) (total i : nat)
    (segments : list ClipSegment) : M (list bool) :=
  match segments with
  | [] => ret []
  | segment :: rest =>
      outcome <- segment_outcome self video_path output_dir mode total i
                   segment ;;
      outcomes <- batch_outcomes self video_path output_dir mode total (S i)
                    rest ;;
      ret (outcome :: outcomes)
  end.

End Processor.

(** The assignments [results[n] = b] for names and outcomes taken in step. *)
Fixpoint record_all (names : list string) (outcomes : list bool)
    (results : results_dict) : results_dict :=
  match names, outcomes with
  | n :: names', b :: outcomes' =>
      record_all names' outcomes' (dict_set n b results)
  | _, _ => results
  end.

(** ** Observations on logs and command lines *)

(** The command lines handed to [subprocess.run], oldest first. *)
Fixpoint spawned (h : list event) : list (list piece) :=
  match h with
  | [] => []
  | Ran cmd _ :: h' => cmd :: spawned h'
  | _ :: h' => spawned h'
  end.

(** The value a command line passes with [--quality-crf], if it has that
    option.  Only [str(v)] counts as the value: a path or a mode that
    happens to read [--quality-crf] is followed by a literal. *)
Fixpoint quality_option (cmd : list piece) : option pyobj :=
  match cmd with
  | [] => None
  | p :: rest =>
      match p, rest with
      | Lit flag, Str v :: _ =>
          if String.eqb flag "--quality-crf" then Some v
          else quality_option rest
      | _, _ => quality_option rest
      end
  end.

(** The executable can be started, whatever happened before. *)
Definition always_found (env : Env) : Prop :=
  forall (h : list event) (cmd : list piece) (capture_output : bool),
    env.(spawn) h cmd capture_output <> NotFound.

(** ** Well-formed documents *)

(** A stream record that is not tagged as video. *)
Definition not_video (stream : pyobj) : Prop :=
  exists d, stream = PyDict d /\ dict_lookup "type" d <> Some (PyStr "video").

(** A keyframe record whose timestamp is the float [t]. *)
Definition has_timestamp (k : pyobj) (t : float) : Prop :=
  exists d, k = PyDict d /\ dict_lookup "timestamp" d = Some (PyFloat t).

(** [abs(t - desired)], the distance of a timestamp to a desired time. *)
Definition distance (desired t : float) : float := abs (t - desired).

(** In [before ++ t :: after], [t] is nearest to [desired] and is the first
    such: everything before it is strictly farther, nothing after it is
    nearer. *)
Definition first_nearest (desired : float) (before : list float) (t : float)
    (after : list float) : Prop :=
  Forall (fun u => (distance desired t <? distance desired u)%float = true)
    before /\
  Forall (fun u => (distance desired t <=? distance desired u)%float = true)
    after.

(** The boundary for a desired time whose nearest keyframe is at [t]. *)
Definition snap (desired tolerance t : float) : pyobj :=
  if (distance desired t <=? tolerance)%float then PyFloat t
  else PyFloat desired.

(** The message [find_optimal_cut_points] prints before it returns. *)
Definition optimal_message (optimal_start optimal_end : pyobj) : event :=
  Printed [Lit "Optimal cut points: "; Fmt2f optimal_start; Lit "s to ";
           Fmt2f optimal_end; Lit "s"].

(** The keyframe record the tool prints for the timestamp [t]. *)
Definition keyframe (t : float) : pyobj := PyDict [("timestamp", PyFloat t)].

(** ** Sample environments *)

(** [posixpath.join] on two components. *)
Definition posix_join (a b : string) : string :=
  if String.prefix "/" b then b
  else if String.eqb a "" then b
  else if String.eqb (String.substring (String.length a - 1) 1 a) "/"
       then a ++ b
  else a ++ "/" ++ b.

(** Every command exits with status 0 and prints the document [doc]. *)
Definition tool_printing (doc : pyobj) : Env :=
  {| spawn := fun _ _ _ => Exited 0 "<json>" "";
     json_loads := fun _ => Some doc;
     makedirs_ok := fun _ _ => true;
     path_join := posix_join |}.

Definition tool_succeeds : Env := tool_printing (PyDict []).

(** The executable is not installed. *)
Definition tool_missing : Env :=
  {| spawn := fun _ _ _ => NotFound;
     json_loads := fun _ => None;
     makedirs_ok := fun _ _ => true;
     path_join := posix_join |}.

(** The process spawned after [n] earlier ones exits with status 1, every
    other process with status 0. *)
Definition tool_failing_at (n : nat) : Env :=
  {| spawn := fun h _ _ =>
                if Nat.eqb (List.length (spawned h)) n
                then Exited 1 "" "cannot write output"
                else Exited 0 "" "";
     json_loads := fun _ => None;
     makedirs_ok := fun _ _ => true;
     path_join := posix_join |}.

Definition processor : TrimXProcessor :=
  {| trimx_path := "trimx"; temp_dir := None |}.

(** A document of the inspect command for a file with one audio stream
    and no video stream. *)
Definition audio_only_document : pyobj :=
  PyDict [("duration", PyFloat 12.5);
          ("bit_rate", PyInt 128000);
          ("streams", PyList [PyDict [("type", PyStr "audio");
                                      ("codec", PyStr "aac")]])].

(** ** Sample segments *)

Definition intro_segment : ClipSegment :=
  {| start_time := 0; end_time := 10; name := "intro";
     description := Some "Introduction segment" |}.

Definition main1_segment : ClipSegment :=
  {| start_time := 15; end_time := 25; name := "main1";
     description := Some "Main content part 1" |}.

Definition main2_segment : ClipSegment :=
  {| start_time := 30; end_time := 40; name := "main2";
     description := Some "Main content part 2" |}.

(** A second segment that takes the name of [intro_segment]. *)
Definition intro_again : ClipSegment :=
  {| start_time := 45; end_time := 55; name := "intro";
     description := None |}.

(** ** The sample video helper *)

(** [str(n)] for an [int]: its decimal digits, with a sign when negative. *)
Definition str_int (n : Z) : string := NilZero.string_of_int (Z.to_int n).

(** The module-level [create_sample_video].  It spawns [ffmpeg] itself, not
    through [run_command]: nothing is printed on failure, and the captured
    output is dropped. *)
Definition create_sample_video (env : Env) (output_path : string)
    (duration : Z) : M bool :=
  print [Lit "Creating sample video: "; Lit output_path; Lit " (";
         Str (PyInt duration); Lit "s)"] ;;
  try_except
    (subprocess_run env
       [Lit "ffmpeg"; Lit "-f"; Lit "lavfi";
        Lit "-i";
        Lit ("testsrc=duration=" ++ str_int duration ++ ":size=640x480:rate=30");
        Lit "-f"; Lit "lavfi";
        Lit "-i"; Lit ("sine=frequency=1000:duration=" ++ str_int duration);
        Lit "-c:v"; Lit "libx264";
        Lit "-c:a"; Lit "aac";
        Lit "-shortest";
        Lit "-y"; Lit output_path]
       true ;;
     ret true)
    (fun e =>
       match e with
       | CalledProcessError _ _ => ret false
       | _ => raise e
       end).

(** ** Vocabulary of the further properties *)

(** The command line [run_command] builds for [extract_clip] without a
    quality, as [batch_extract_clips] calls it. *)
Definition clip_command (self : TrimXProcessor)
    (video_path output_path mode : string) (segment : ClipSegment)
  : list piece :=
  [Lit self.(trimx_path); Lit "clip"; Lit video_path;
   Lit "--start"; Str (PyFloat segment.(start_time));
   Lit "--end"; Str (PyFloat segment.(end_time));
   Lit "--mode"; Lit mode; Lit "--output"; Lit output_path;
   Lit "--overwrite"; Lit "yes"].

(** The command line [run_command] builds for [verify_clip]. *)
Definition verify_command (self : TrimXProcessor) (clip_path : string)
    (expected_start expected_end tolerance : float) : list piece :=
  [Lit self.(trimx_path); Lit "verify"; Lit clip_path;
   Lit "--expected-start"; Str (PyFloat expected_start);
   Lit "--expected-end"; Str (PyFloat expected_end);
   Lit "--tolerance"; Str (PyFloat tolerance)].

(** The command lines of [inspect_video] and of [analyze_keyframes]. *)
Definition inspect_command (self : TrimXProcessor) (video_path : string)
  : list piece :=
  [Lit self.(trimx_path); Lit "inspect"; Lit video_path;
   Lit "--format"; Lit "json"; Lit "--show-streams"].

Definition keyframes_command (self : TrimXProcessor) (video_path : string)
  : list piece :=
  [Lit self.(trimx_path); Lit "inspect"; Lit video_path;
   Lit "--show-keyframes"; Lit "--format"; Lit "json"].

(** The three lines [run_command] prints when the process exits with a
    status other than 0. *)
Definition failure_report (cmd : list piece) (returncode : Z) (stderr : pyobj)
  : list event :=
  [Printed (Lit "Error running command: " :: join (Lit " ") cmd);
   Printed [Lit "Return code: "; Str (PyInt returncode)];
   Printed [Lit "Error output: "; Str stderr]].

(** The two lines it prints when the executable is missing. *)
Definition missing_report (self : TrimXProcessor) : list event :=
  [Printed [Lit "TrimX CLI not found at: "; Lit self.(trimx_path)];
   Printed [Lit "Please ensure TrimX is installed and in your PATH"]].


(** [d.get(key, default)] on the fields of a dict. *)
Definition field_or (d : list (string * pyobj)) (key : string)
    (default : pyobj) : pyobj :=
  match dict_lookup key d with
  | Some v => v
  | None => default
  end.

Definition is_dict (o : pyobj) : Prop := exists d, o = PyDict d.

(** A stream record whose [type] is the string [tag]. *)
Definition tagged (tag : string) (stream : pyobj) : bool :=
  match stream with
  | PyDict d => py_eq_str (field_or d "type" PyNone) tag
  | _ => false
  end.

(** A keyframe record whose timestamp is the number [v], which stands for
    the float [x]: a float, or an integer or boolean that converts. *)
Definition numeric_timestamp (k v : pyobj) (x : float) : Prop :=
  exists d,
    k = PyDict d /\ dict_lookup "timestamp" d = Some v /\ py_number v = Ok x.

(** What evaluating [abs(k["timestamp"] - desired)] gives. *)
Definition distance_of (desired : float) (k : pyobj) : result float :=
  match py_getitem k "timestamp" with
  | Ok v =>
      match py_sub_float v desired with
      | Ok x => Ok (abs x)
      | Raise e => Raise e
      end
  | Raise e => Raise e
  end.

(** The exceptions that choosing cut points can raise. *)
Definition selection_error (e : exn) : Prop :=
  e = TypeError \/ e = KeyError \/ e = OverflowError.

(** A document with one keyframe list and nothing else. *)
Definition keyframes_document (keyframes : pyobj) : pyobj :=
  PyDict [("keyframes", keyframes)].

(** The inspect command exits with status 2 and writes to stderr. *)
Definition tool_rejecting : Env :=
  {| spawn := fun _ _ _ => Exited 2 "" "unsupported container";
     json_loads := fun _ => None;
     makedirs_ok := fun _ _ => true;
     path_join := posix_join |}.

(** The tool exits with status 0 and prints something that is not JSON. *)
Definition tool_garbling : Env :=
  {| spawn := fun _ _ _ => Exited 0 "not json" "";
     json_loads := fun _ => None;
     makedirs_ok := fun _ _ => true;
     path_join := posix_join |}.


(** A document with a video stream between two others. *)
Definition movie_document : pyobj :=
  PyDict [("duration", PyFloat 30);
          ("file_size", PyInt 1048576);
          ("streams",
           PyList [PyDict [("type", PyStr "audio"); ("codec", PyStr "aac")];
                   PyDict [("type", PyStr "video"); ("width", PyInt 640);
                           ("height", PyInt 480)];
                   PyDict [("type", PyStr "subtitle")]])].

(** * Properties *)

(** ** Extraction *)

Section ExtractFacts.

Variable env : Env.
Variable self : TrimXProcessor.
Variables (video_path output_path mode : string).
Variables (start_time end_time : float).

(** The line [extract_clip] prints first. *)
Let announce : event :=
  Printed [Lit "Extracting clip: "; Str (PyFloat start_time); Lit "s to ";
           Str (PyFloat end_time); Lit "s"].

(** What [extract_clip] does, whatever the arguments: it prints, spawns one
    process for one command line that starts with the window as given, and
    answers by how that process ended. *)
Lemma extract_clip_run (quality_crf : option Z) (h : list event) :
  exists options tail,
    let cmd :=
      [Lit self.(trimx_path); Lit "clip"; Lit video_path;
       Lit "--start"; Str (PyFloat start_time);
       Lit "--end"; Str (PyFloat end_time);
       Lit "--mode"; Lit mode; Lit "--output"; Lit output_path;
       Lit "--overwrite"; Lit "yes"] ++ options in
    options = (if truthy (optional_int quality_crf)
               then [Lit "--quality-crf"; Str (optional_int quality_crf)]
               else []) /\
    spawned tail = [] /\
    extract_clip env self video_path start_time end_time output_path mode
      quality_crf h
    = (match env.(spawn) (h ++ [announce]) cmd false with
       | Exited rc _ _ => Ok (rc =? 0)%Z
       | NotFound => Raise FileNotFoundError
       end,
       (h ++ [announce]) ++ [Ran cmd false] ++ tail).
Proof.
  exists (if truthy (optional_int quality_crf)
          then [Lit "--quality-crf"; Str (optional_int quality_crf)]
          else []).
  subst announce.
  unfold extract_clip, run_command, subprocess_run, try_except, bind, print,
    emit, ret, raise.
  destruct (truthy (optional_int quality_crf)); cbn [app];
    (destruct (spawn env _ _ false) as [rc out err|]);
    try destruct (rc =? 0)%Z;
    eexists; (split; [reflexivity|]);
    (split; [| rewrite <- ?app_assoc; cbn [app]; reflexivity]); reflexivity.
Qed.

End ExtractFacts.

(** [verify_clip] likewise: one message, one process, and the answer read
    off its exit status. *)
Lemma verify_clip_run (env : Env) (self : TrimXProcessor) (clip_path : string)
    (expected_start expected_end tolerance : float) (h : list event) :
  exists tail,
    let log := h ++ [Printed [Lit "Verifying clip: "; Lit clip_path]] in
    let cmd :=
      [Lit self.(trimx_path); Lit "verify"; Lit clip_path;
       Lit "--expected-start"; Str (PyFloat expected_start);
       Lit "--expected-end"; Str (PyFloat expected_end);
       Lit "--tolerance"; Str (PyFloat tolerance)] in
    spawned tail = [] /\
    verify_clip env self clip_path expected_start expected_end tolerance h
    = (match env.(spawn) log cmd false with
       | Exited rc _ _ => Ok (rc =? 0)%Z
       | NotFound => Raise FileNotFoundError
       end,
       log ++ [Ran cmd false] ++ tail).
Proof.
  unfold verify_clip, run_command, subprocess_run, try_except, bind, print,
    emit, ret, raise.
  cbn [app].
  destruct (spawn env _ _ false) as [rc out err|];
    try destruct (rc =? 0)%Z;
    eexists; (split; [| rewrite <- ?app_assoc; cbn [app]; reflexivity]);
    reflexivity.
Qed.

Lemma spawned_app (h1 h2 : list event) :
  spawned (h1 ++ h2) = spawned h1 ++ spawned h2.
Proof.
  induction h1 as [|[msg|cmd c|p] h1 IH]; cbn; rewrite ?IH; reflexivity.
Qed.

(** C1, as amended: in every mode, [extract_clip] spawns one command, and
    that command passes [--quality-crf] exactly when the quality parameter is
    given and is not 0; the mode has no part in it. *)
Theorem extract_clip_quality_in_every_mode
    (env : Env) (self : TrimXProcessor) (video_path output_path mode : string)
    (start_time end_time : float) (quality_crf : option Z) (h : list event) :
  exists cmd,
    spawned (snd (extract_clip env self video_path start_time end_time
                    output_path mode quality_crf h))
    = spawned h ++ [cmd] /\
    quality_option cmd =
      match quality_crf with
      | Some q => if (q =? 0)%Z then None else Some (PyInt q)
      | None => None
      end.
Proof.
  destruct (extract_clip_run env self video_path output_path mode start_time
              end_time quality_crf h) as (options & tail & H).
  cbv zeta in H. destruct H as (Hopt & Htail & Hrun).
  rewrite Hrun. cbn [snd]. eexists. split.
  - rewrite !spawned_app, Htail. cbn. rewrite app_nil_r. reflexivity.
  - subst options. destruct quality_crf as [q|]; cbn; [|reflexivity].
    destruct (q =? 0)%Z; reflexivity.
Qed.

(** C1 fails as stated: in copy mode, a quality of 23 is passed on. *)
Lemma extract_clip_quality_in_copy_mode :
  extract_clip tool_succeeds processor "in.mp4" 5 15 "out.mp4" "copy"
    (Some 23%Z) []
  = (Ok true,
     [Printed [Lit "Extracting clip: "; Str (PyFloat 5); Lit "s to ";
               Str (PyFloat 15); Lit "s"];
      Ran [Lit "trimx"; Lit "clip"; Lit "in.mp4";
           Lit "--start"; Str (PyFloat 5); Lit "--end"; Str (PyFloat 15);
           Lit "--mode"; Lit "copy"; Lit "--output"; Lit "out.mp4";
           Lit "--overwrite"; Lit "yes";
           Lit "--quality-crf"; Str (PyInt 23)]
          false]).
Proof. reflexivity. Qed.

(** C10: a quality of 0 is treated as no quality at all, in every mode:
    the call behaves as the call without the parameter (same log, same
    answer), and the command it spawns has no [--quality-crf] option. *)
Theorem extract_clip_quality_zero
    (env : Env) (self : TrimXProcessor) (video_path output_path mode : string)
    (start_time end_time : float) (h : list event) :
  (extract_clip env self video_path start_time end_time output_path mode
     (Some 0%Z) h
   = extract_clip env self video_path start_time end_time output_path mode
       None h) /\
  (exists cmd,
      spawned (snd (extract_clip env self video_path start_time end_time
                      output_path mode (Some 0%Z) h))
      = spawned h ++ [cmd] /\
      quality_option cmd = None).
Proof.
  split; [reflexivity|].
  destruct (extract_clip_run env self video_path output_path mode start_time
              end_time (Some 0%Z) h) as (options & tail & H).
  cbv zeta in H. destruct H as (Hopt & Htail & Hrun).
  rewrite Hrun. cbn [snd]. eexists. split.
  - rewrite !spawned_app, Htail. cbn. rewrite app_nil_r. reflexivity.
  - subst options. reflexivity.
Qed.

(** C2, as amended: [extract_clip] does not look at the order of the two
    times.  For every window it spawns one process, whose command line
    carries the times as given, and it answers with a boolean unless the
    executable is missing. *)
Theorem extract_clip_any_window
    (env : Env) (self : TrimXProcessor) (video_path output_path mode : string)
    (start_time end_time : float) (quality_crf : option Z) (h : list event) :
  exists options,
    let run := extract_clip env self video_path start_time end_time
                 output_path mode quality_crf h in
    spawned (snd run)
    = spawned h ++
      [[Lit self.(trimx_path); Lit "clip"; Lit video_path;
        Lit "--start"; Str (PyFloat start_time);
        Lit "--end"; Str (PyFloat end_time);
        Lit "--mode"; Lit mode; Lit "--output"; Lit output_path;
        Lit "--overwrite"; Lit "yes"] ++ options] /\
    (fst run = Ok true \/ fst run = Ok false \/
     fst run = Raise FileNotFoundError).
Proof.
  destruct (extract_clip_run env self video_path output_path mode start_time
              end_time quality_crf h) as (options & tail & H).
  cbv zeta in H. destruct H as (Hopt & Htail & Hrun).
  exists options. cbv zeta. rewrite Hrun. cbn [fst snd]. split.
  - rewrite !spawned_app, Htail. cbn. rewrite app_nil_r. reflexivity.
  - destruct (spawn env _ _ false) as [rc out err|]; [|auto].
    destruct (rc =? 0)%Z; auto.
Qed.

(** C2 fails as stated: a window that ends before it starts is sent to
    the tool, and the call answers [True] when the tool exits with 0. *)
Lemma extract_clip_reversed_window :
  (5 <=? 15)%float = true /\
  extract_clip tool_succeeds processor "in.mp4" 15 5 "out.mp4" "auto" None []
  = (Ok true,
     [Printed [Lit "Extracting clip: "; Str (PyFloat 15); Lit "s to ";
               Str (PyFloat 5); Lit "s"];
      Ran [Lit "trimx"; Lit "clip"; Lit "in.mp4";
           Lit "--start"; Str (PyFloat 15); Lit "--end"; Str (PyFloat 5);
           Lit "--mode"; Lit "auto"; Lit "--output"; Lit "out.mp4";
           Lit "--overwrite"; Lit "yes"]
          false]).
Proof. split; reflexivity. Qed.

(** C7, as amended: the answer of [extract_clip] is decided by how its one
    process ended.  An exit status other than 0 becomes [False]; a missing
    executable is not caught, the [FileNotFoundError] reaches the caller. *)
Theorem extract_clip_answer
    (env : Env) (self : TrimXProcessor) (video_path output_path mode : string)
    (start_time end_time : float) (quality_crf : option Z) (h : list event) :
  exists log cmd tail,
    let run := extract_clip env self video_path start_time end_time
                 output_path mode quality_crf h in
    snd run = log ++ [Ran cmd false] ++ tail /\
    spawned log = spawned h /\
    spawned tail = [] /\
    fst run = match env.(spawn) log cmd false with
              | Exited rc _ _ => if (rc =? 0)%Z then Ok true else Ok false
              | NotFound => Raise FileNotFoundError
              end.
Proof.
  destruct (extract_clip_run env self video_path output_path mode start_time
              end_time quality_crf h) as (options & tail & H).
  cbv zeta in H. destruct H as (Hopt & Htail & Hrun).
  cbv zeta. rewrite Hrun. cbn [fst snd].
  eexists; eexists; exists tail. split; [reflexivity|].
  split; [rewrite spawned_app; cbn; apply app_nil_r|].
  split; [exact Htail|].
  destruct (spawn env _ _ false) as [rc out err|]; [|reflexivity].
  destruct (rc =? 0)%Z; reflexivity.
Qed.

(** C7 fails as stated: when the executable is missing, [extract_clip]
    raises instead of answering [False]. *)
Lemma extract_clip_tool_missing :
  extract_clip tool_missing processor "in.mp4" 5 15 "out.mp4" "auto" None []
  = (Raise FileNotFoundError,
     [Printed [Lit "Extracting clip: "; Str (PyFloat 5); Lit "s to ";
               Str (PyFloat 15); Lit "s"];
      Ran [Lit "trimx"; Lit "clip"; Lit "in.mp4";
           Lit "--start"; Str (PyFloat 5); Lit "--end"; Str (PyFloat 15);
           Lit "--mode"; Lit "auto"; Lit "--output"; Lit "out.mp4";
           Lit "--overwrite"; Lit "yes"]
          false;
      Printed [Lit "TrimX CLI not found at: "; Lit "trimx"];
      Printed [Lit "Please ensure TrimX is installed and in your PATH"]]).
Proof. reflexivity. Qed.

(** ** The results dictionary *)

Lemma dict_lookup_set_same (key : string) (v : bool) (d : results_dict) :
  dict_lookup key (dict_set key v d) = Some v.
Proof.
  induction d as [|[k v'] d IH]; cbn.
  - rewrite String.eqb_refl. reflexivity.
  - destruct (String.eqb k key) eqn:E; cbn; rewrite E; auto.
Qed.

Lemma dict_lookup_set_other (key key' : string) (v : bool) (d : results_dict) :
  key <> key' -> dict_lookup key' (dict_set key v d) = dict_lookup key' d.
Proof.
  intros Hne. induction d as [|[k v'] d IH]; cbn.
  - destruct (String.eqb_spec key key'); [contradiction | reflexivity].
  - destruct (String.eqb_spec k key) as [->|Hk]; cbn.
    + destruct (String.eqb_spec key key'); [contradiction | reflexivity].
    + rewrite IH. reflexivity.
Qed.

Lemma keys_set_old (key : string) (v : bool) (d : results_dict) :
  In key (keys d) -> keys (dict_set key v d) = keys d.
Proof.
  unfold keys. induction d as [|[k v'] d IH]; cbn; [tauto|].
  intros Hin. destruct (String.eqb_spec k key) as [->|Hk]; cbn; [reflexivity|].
  f_equal. apply IH. destruct Hin; [contradiction | assumption].
Qed.

Lemma keys_set_new (key : string) (v : bool) (d : results_dict) :
  ~ In key (keys d) -> keys (dict_set key v d) = keys d ++ [key].
Proof.
  unfold keys. induction d as [|[k v'] d IH]; cbn; [reflexivity|].
  intros Hin. destruct (String.eqb_spec k key) as [->|Hk]; cbn.
  - tauto.
  - f_equal. apply IH. tauto.
Qed.

Lemma keys_set_in (key key' : string) (v : bool) (d : results_dict) :
  In key' (keys (dict_set key v d)) <-> key' = key \/ In key' (keys d).
Proof.
  destruct (in_dec string_dec key (keys d)) as [Hin|Hin].
  - rewrite keys_set_old by assumption. split; [tauto|].
    intros [->|H]; assumption.
  - rewrite keys_set_new, in_app_iff by assumption. cbn. split.
    + intros [H|[H|[]]]; auto.
    + intros [->|H]; auto.
Qed.

Lemma keys_record_all (names : list string) :
  forall (outcomes : list bool) (results : results_dict),
    List.length outcomes = List.length names ->
    NoDup (keys results ++ names) ->
    keys (record_all names outcomes results) = keys results ++ names.
Proof.
  induction names as [|n names IH]; intros [|b outcomes] results Hlen Hnd;
    cbn in *; try discriminate; [now rewrite app_nil_r|].
  assert (Hfresh : ~ In n (keys results)).
  { apply NoDup_remove_2 in Hnd. rewrite in_app_iff in Hnd. tauto. }
  rewrite IH.
  - rewrite keys_set_new, <- app_assoc by assumption. reflexivity.
  - lia.
  - rewrite keys_set_new, <- app_assoc by assumption. exact Hnd.
Qed.

Lemma keys_record_all_in (names : list string) :
  forall (outcomes : list bool) (results : results_dict) (key : string),
    List.length outcomes = List.length names ->
    In key (keys (record_all names outcomes results)) <->
    In key (keys results) \/ In key names.
Proof.
  induction names as [|n names IH]; intros [|b outcomes] results key Hlen;
    cbn in *; try discriminate; [tauto|].
  rewrite IH, keys_set_in by lia. intuition congruence.
Qed.

(** Later assignments win: the value under a key is the one paired with
    its last occurrence among the names, and the old value if there is none. *)
Lemma lookup_record_all (names : list string) :
  forall (outcomes : list bool) (results : results_dict) (key : string),
    dict_lookup key (record_all names outcomes results) =
    match dict_lookup key (rev (combine names outcomes)) with
    | Some b => Some b
    | None => dict_lookup key results
    end.
Proof.
  assert (Hsnoc : forall (d : list (string * bool)) k v key,
             dict_lookup key (d ++ [(k, v)]) =
             match dict_lookup key d with
             | Some b => Some b
             | None => if String.eqb k key then Some v else None
             end).
  { induction d as [|[k' v'] d IHd]; intros k v key; cbn; [reflexivity|].
    destruct (String.eqb k' key); [reflexivity | apply IHd]. }
  induction names as [|n names IH]; intros [|b outcomes] results key; cbn;
    try reflexivity.
  rewrite IH, Hsnoc.
  destruct (dict_lookup key (rev (combine names outcomes))); [reflexivity|].
  destruct (String.eqb_spec n key) as [->|Hne].
  - apply dict_lookup_set_same.
  - apply dict_lookup_set_other. exact Hne.
Qed.

(** ** The batch loop *)

Section BatchFacts.

Variable env : Env.
Variable self : TrimXProcessor.
Variables (video_path output_dir mode : string).
Variable total : nat.

(** One turn of the loop is [segment_outcome] followed by the assignment. *)
Lemma batch_loop_turn (i : nat) (segment : ClipSegment)
    (rest : list ClipSegment) (results : results_dict) (h : list event) :
  batch_loop env self video_path output_dir mode total i (segment :: rest)
    results h
  = match segment_outcome env self video_path output_dir mode total i
            segment h with
    | (Ok outcome, h') =>
        batch_loop env self video_path output_dir mode total (S i) rest
          (dict_set segment.(name) outcome results) h'
    | (Raise e, h') => (Raise e, h')
    end.
Proof.
  cbn [batch_loop]. unfold segment_outcome, bind, print, emit, ret.
  destruct (extract_clip _ _ _ _ _ _ _ _ _) as [[[|]|e] h1]; try reflexivity.
  destruct (verify_clip _ _ _ _ _ _ _) as [[v|e] h2]; reflexivity.
Qed.

(** The loop stores the outcomes of its turns and does nothing else. *)
Lemma batch_loop_outcomes (segments : list ClipSegment) :
  forall (i : nat) (results : results_dict) (h : list event),
    batch_loop env self video_path output_dir mode total i segments results h
    = match batch_outcomes env self video_path output_dir mode total i
              segments h with
      | (Ok outcomes, h') =>
          (Ok (record_all (map name segments) outcomes results), h')
      | (Raise e, h') => (Raise e, h')
      end.
Proof.
  induction segments as [|segment rest IH]; intros i results h.
  - reflexivity.
  - rewrite batch_loop_turn. cbn [batch_outcomes]. unfold bind at 1.
    destruct (segment_outcome _ _ _ _ _ _ _ _ _) as [[outcome|e] h1];
      [|reflexivity].
    rewrite IH. unfold bind, ret.
    destruct (batch_outcomes _ _ _ _ _ _ _ _ _) as [[outcomes|e] h2];
      reflexivity.
Qed.

Lemma batch_outcomes_length (segments : list ClipSegment) :
  forall (i : nat) (h h' : list event) (outcomes : list bool),
    batch_outcomes env self video_path output_dir mode total i segments h
    = (Ok outcomes, h') ->
    List.length outcomes = List.length segments.
Proof.
  induction segments as [|segment rest IH]; intros i h h' outcomes; cbn.
  - unfold ret. intros [= <- _]. reflexivity.
  - unfold bind at 1.
    destruct (segment_outcome _ _ _ _ _ _ _ _ _) as [[outcome|e] h1];
      [|discriminate].
    unfold bind, ret.
    destruct (batch_outcomes _ _ _ _ _ _ _ _ _) as [[outcomes'|e] h2] eqn:E;
      [|discriminate].
    intros [= <- _]. cbn. f_equal. eapply IH. exact E.
Qed.

(** The loop over a list cut in two: the second part starts from what the
    first part left. *)
Lemma batch_loop_app (before after : list ClipSegment) :
  forall (i : nat) (results : results_dict) (h : list event),
    batch_loop env self video_path output_dir mode total i (before ++ after)
      results h
    = match batch_loop env self video_path output_dir mode total i before
              results h with
      | (Ok results', h') =>
          batch_loop env self video_path output_dir mode total
            (i + List.length before) after results' h'
      | (Raise e, h') => (Raise e, h')
      end.
Proof.
  induction before as [|segment rest IH]; intros i results h.
  - cbn. rewrite Nat.add_0_r. reflexivity.
  - cbn [app]. rewrite !batch_loop_turn.
    destruct (segment_outcome _ _ _ _ _ _ _ _ _) as [[outcome|e] h1];
      [|reflexivity].
    rewrite IH. cbn [List.length]. rewrite Nat.add_succ_comm. reflexivity.
Qed.

(** When the executable can always be started, every turn has an outcome
    and the loop reaches its end. *)
Lemma segment_outcome_returns (i : nat) (segment : ClipSegment)
    (h : list event) :
  always_found env ->
  exists outcome h',
    segment_outcome env self video_path output_dir mode total i segment h
    = (Ok outcome, h').
Proof.
  intros Hfound. unfold segment_outcome, bind at 1, print, emit.
  unfold bind.
  match goal with
  | |- context [extract_clip env self ?v ?s ?e ?o ?m ?q ?l] =>
      destruct (extract_clip_run env self v o m s e q l) as (options & tail & H)
  end.
  cbv zeta in H. destruct H as (_ & _ & ->).
  destruct (spawn env _ _ false) as [rc out err|] eqn:Hclip;
    [|exfalso; eapply Hfound; exact Hclip].
  destruct (rc =? 0)%Z; [|unfold ret; eauto].
  match goal with
  | |- context [verify_clip env self ?c ?s ?e ?t ?l] =>
      destruct (verify_clip_run env self c s e t l) as (tail' & H)
  end.
  cbv zeta in H. destruct H as (_ & ->).
  match goal with
  | |- context [spawn env ?l ?c false] =>
      destruct (spawn env l c false) as [rc' out' err'|] eqn:Hverify
  end; [eauto | exfalso; eapply Hfound; exact Hverify].
Qed.

Lemma batch_outcomes_returns (segments : list ClipSegment) :
  always_found env ->
  forall (i : nat) (h : list event),
  exists outcomes h',
    batch_outcomes env self video_path output_dir mode total i segments h
    = (Ok outcomes, h').
Proof.
  intros Hfound. induction segments as [|segment rest IH]; intros i h; cbn.
  - unfold ret. eauto.
  - unfold bind at 1.
    destruct (segment_outcome_returns i segment h Hfound)
      as (outcome & h1 & ->).
    unfold bind, ret.
    destruct (IH (S i) h1) as (outcomes & h2 & ->). eauto.
Qed.

End BatchFacts.

(** [batch_extract_clips] returns a mapping whenever the output directory
    can be made and the executable can be started. *)
Lemma batch_extract_clips_returns (env : Env) (self : TrimXProcessor)
    (video_path : string) (segments : list ClipSegment)
    (output_dir mode : string) (h : list event) :
  always_found env ->
  (forall h' p, env.(makedirs_ok) h' p = true) ->
  exists results h',
    batch_extract_clips env self video_path segments output_dir mode h
    = (Ok results, h').
Proof.
  intros Hfound Hdirs.
  unfold batch_extract_clips, bind, print, emit, os_makedirs.
  rewrite Hdirs, batch_loop_outcomes.
  destruct (batch_outcomes_returns env self video_path output_dir mode
              (List.length segments) segments Hfound 0
              ((h ++ [Printed [Lit "Batch extracting ";
                                 Str (PyInt (Z.of_nat (List.length segments)));
                                 Lit " clips from "; Lit video_path]]) ++
               [MadeDirs output_dir]))
    as (outcomes & h' & ->).
  eauto.
Qed.


(** C8: when [batch_extract_clips] returns, the keys of the mapping are the
    names of the segments.  With unique names they are the names in input
    order, one entry per segment.  In general the value under a name is the
    outcome of the last segment of that name: a later segment overwrites an
    earlier one, and the run logs nothing but the turns of the segments. *)
Theorem batch_extract_clips_mapping
    (env : Env) (self : TrimXProcessor) (video_path : string)
    (segments : list ClipSegment) (output_dir mode : string)
    (h h' : list event) (results : results_dict) :
  batch_extract_clips env self video_path segments output_dir mode h
  = (Ok results, h') ->
  (NoDup (map name segments) ->
   keys results = map name segments /\
   List.length results = List.length segments) /\
  (forall key, In key (keys results) <-> In key (map name segments)) /\
  (exists outcomes,
      batch_outcomes env self video_path output_dir mode
        (List.length segments) 0 segments
        (h ++ [Printed [Lit "Batch extracting ";
                        Str (PyInt (Z.of_nat (List.length segments)));
                        Lit " clips from "; Lit video_path];
               MadeDirs output_dir])
      = (Ok outcomes, h') /\
      List.length outcomes = List.length segments /\
      forall key,
        dict_lookup key results
        = dict_lookup key (rev (combine (map name segments) outcomes))).
Proof.
  unfold batch_extract_clips, bind, print, emit, os_makedirs.
  destruct (makedirs_ok env _ output_dir); [|discriminate].
  rewrite batch_loop_outcomes, <- app_assoc. cbn [app].
  destruct (batch_outcomes _ _ _ _ _ _ _ _ _) as [[outcomes|e] h1] eqn:E;
    [|discriminate].
  intros [= <- <-].
  pose proof (batch_outcomes_length _ _ _ _ _ _ _ _ _ _ _ E) as Hlen.
  split; [|split].
  - intros Hnd.
    assert (Hkeys : keys (record_all (map name segments) outcomes [])
                    = map name segments).
    { rewrite keys_record_all; [reflexivity | | exact Hnd].
      rewrite length_map. exact Hlen. }
    split; [exact Hkeys|].
    rewrite <- (length_map fst), <- (length_map name).
    f_equal. exact Hkeys.
  - intros key. rewrite keys_record_all_in.
    + cbn. tauto.
    + rewrite length_map. exact Hlen.
  - exists outcomes. split; [reflexivity|]. split; [exact Hlen|].
    intros key. rewrite lookup_record_all.
    destruct (dict_lookup key _); reflexivity.
Qed.

(** C8 on a batch whose third segment repeats the name of the first and
    fails to extract: the mapping has two keys, in the order of first
    insertion, and ["intro"] holds the later outcome. *)
Lemma batch_extract_clips_mapping_witness :
  let segments := [intro_segment; main1_segment; intro_again] in
  let run := batch_extract_clips (tool_failing_at 4) processor
               "in.mp4" segments "clips" "auto" [] in
  let results := [("intro", false); ("main1", true)] in
  run = (Ok results, snd run) /\
  (forall key, In key (keys results) <-> In key (map name segments)) /\
  (exists outcomes,
      outcomes = [true; true; false] /\
      forall key,
        dict_lookup key results
        = dict_lookup key (rev (combine (map name segments) outcomes))).
Proof.
  cbv zeta.
  pose proof (batch_extract_clips_mapping (tool_failing_at 4) processor
                "in.mp4" [intro_segment; main1_segment; intro_again]
                "clips" "auto" [] _ _ eq_refl)
    as (_ & Hkeys & outcomes & Hrun & _ & Hlast).
  split; [reflexivity|]. split; [exact Hkeys|].
  exists outcomes. split; [|exact Hlast].
  vm_compute in Hrun. injection Hrun as <-. reflexivity.
Defined.

(** C6: a segment whose extraction answers [False] does not stop the
    batch.  Once the segments before it are done, its turn spawns the clip
    command and nothing else (no verification), stores [False] under its
    name, and the loop goes on with the segments after it, in order.  When
    the batch returns, every later segment has an entry, and the failed one
    reads [False] unless a later segment took its name. *)
Theorem batch_loop_failed_extraction
    (env : Env) (self : TrimXProcessor) (video_path output_dir mode : string)
    (total i : nat) (before after : list ClipSegment) (segment : ClipSegment)
    (results results1 : results_dict) (h h1 h2 : list event) :
  batch_loop env self video_path output_dir mode total i before results h
  = (Ok results1, h1) ->
  extract_clip env self video_path segment.(start_time) segment.(end_time)
    (env.(path_join) output_dir (segment.(name) ++ ".mp4")) mode None
    (h1 ++ [Printed [Lit "Processing segment ";
                     Str (PyInt (Z.of_nat (i + List.length before) + 1));
                     Lit "/"; Str (PyInt (Z.of_nat total)); Lit ": ";
                     Lit segment.(name)]])
  = (Ok false, h2) ->
  batch_loop env self video_path output_dir mode total i
    (before ++ segment :: after) results h
  = batch_loop env self video_path output_dir mode total
      (S (i + List.length before)) after
      (dict_set segment.(name) false results1) h2 /\
  dict_lookup segment.(name) (dict_set segment.(name) false results1)
  = Some false /\
  spawned h2
  = spawned h1 ++
    [[Lit self.(trimx_path); Lit "clip"; Lit video_path;
      Lit "--start"; Str (PyFloat segment.(start_time));
      Lit "--end"; Str (PyFloat segment.(end_time));
      Lit "--mode"; Lit mode; Lit "--output";
      Lit (env.(path_join) output_dir (segment.(name) ++ ".mp4"));
      Lit "--overwrite"; Lit "yes"]] /\
  forall (final : results_dict) (h' : list event),
    batch_loop env self video_path output_dir mode total i
      (before ++ segment :: after) results h
    = (Ok final, h') ->
    (forall later, In later after -> In later.(name) (keys final)) /\
    (~ In segment.(name) (map name after) ->
     dict_lookup segment.(name) final = Some false).
Proof.
  intros Hbefore Hextract.
  assert (Hturn :
    batch_loop env self video_path output_dir mode total i
      (before ++ segment :: after) results h
    = batch_loop env self video_path output_dir mode total
        (S (i + List.length before)) after
        (dict_set segment.(name) false results1) h2).
  { rewrite batch_loop_app, Hbefore, batch_loop_turn.
    unfold segment_outcome, bind, print, emit, ret.
    rewrite Hextract. reflexivity. }
  split; [exact Hturn|].
  split; [apply dict_lookup_set_same|].
  split.
  - destruct (extract_clip_run env self video_path
                (env.(path_join) output_dir (segment.(name) ++ ".mp4")) mode
                segment.(start_time) segment.(end_time) None
                (h1 ++ [Printed [Lit "Processing segment ";
                                 Str (PyInt (Z.of_nat (i + List.length before) + 1));
                                 Lit "/"; Str (PyInt (Z.of_nat total)); Lit ": ";
                                 Lit segment.(name)]]))
      as (options & tail & H).
    cbv zeta in H. destruct H as (Hopt & Htail & Hrun).
    rewrite Hextract in Hrun. injection Hrun as _ ->.
    rewrite !spawned_app. cbn [spawned]. rewrite Htail. subst options. cbn.
    rewrite !app_nil_r. reflexivity.
  - intros final h'. rewrite Hturn, batch_loop_outcomes.
    destruct (batch_outcomes _ _ _ _ _ _ _ _ _) as [[outcomes|e] h3] eqn:E;
      [|discriminate].
    intros [= <- _].
    pose proof (batch_outcomes_length _ _ _ _ _ _ _ _ _ _ _ E) as Hlen.
    split.
    + intros later Hin. apply keys_record_all_in.
      * rewrite length_map. exact Hlen.
      * right. apply in_map. exact Hin.
    + intros Hfresh. rewrite lookup_record_all.
      destruct (dict_lookup _ (rev _)) as [b|] eqn:Elast.
      * exfalso. apply Hfresh.
        assert (Hin : forall (d : list (string * bool)) k v,
                   dict_lookup k d = Some v -> In k (map fst d)).
        { induction d as [|[k' v'] d IHd]; cbn; [discriminate|].
          intros k v. destruct (String.eqb_spec k' k); eauto. }
        apply Hin in Elast. rewrite map_rev, <- in_rev in Elast.
        clear - Elast. revert outcomes Elast.
        induction (map name after) as [|n names IHn]; intros [|b' outcomes];
          cbn; try tauto.
        intros [->|H]; eauto.
      * apply dict_lookup_set_same.
Qed.

(** C6 on three segments where the tool fails on the clip command of the
    second (the third process spawned): the first and third outcomes are
    there, the second reads [False], and no verification ran for it. *)
Lemma batch_loop_failed_extraction_witness :
  let env := tool_failing_at 2 in
  let before := batch_loop env processor "in.mp4" "clips" "auto" 3 0
                  [intro_segment] [] [] in
  let failed := extract_clip env processor "in.mp4" 15 25 "clips/main1.mp4"
                  "auto" None
                  (snd before ++
                   [Printed [Lit "Processing segment "; Str (PyInt 2); Lit "/";
                             Str (PyInt 3); Lit ": "; Lit "main1"]]) in
  let final := [("intro", true); ("main1", false); ("main2", true)] in
  before = (Ok [("intro", true)], snd before) /\
  failed = (Ok false, snd failed) /\
  batch_loop env processor "in.mp4" "clips" "auto" 3 0
    [intro_segment; main1_segment; main2_segment] [] []
  = (Ok final,
     snd (batch_loop env processor "in.mp4" "clips" "auto" 3 2
            [main2_segment] [("intro", true); ("main1", false)] (snd failed))) /\
  spawned (snd failed)
  = spawned (snd before) ++
    [[Lit "trimx"; Lit "clip"; Lit "in.mp4"; Lit "--start"; Str (PyFloat 15);
      Lit "--end"; Str (PyFloat 25); Lit "--mode"; Lit "auto";
      Lit "--output"; Lit "clips/main1.mp4"; Lit "--overwrite"; Lit "yes"]] /\
  In "main2" (keys final) /\
  dict_lookup "main1" final = Some false.
Proof.
  cbv zeta.
  assert (Hbefore :
    batch_loop (tool_failing_at 2) processor "in.mp4" "clips" "auto" 3 0
      [intro_segment] [] []
    = (Ok [("intro", true)],
       snd (batch_loop (tool_failing_at 2) processor "in.mp4" "clips" "auto"
              3 0 [intro_segment] [] []))) by reflexivity.
  assert (Hfailed :
    extract_clip (tool_failing_at 2) processor "in.mp4" 15 25
      "clips/main1.mp4" "auto" None
      (snd (batch_loop (tool_failing_at 2) processor "in.mp4" "clips" "auto"
              3 0 [intro_segment] [] []) ++
       [Printed [Lit "Processing segment "; Str (PyInt 2); Lit "/";
                 Str (PyInt 3); Lit ": "; Lit "main1"]])
    = (Ok false,
       snd (extract_clip (tool_failing_at 2) processor "in.mp4" 15 25
              "clips/main1.mp4" "auto" None
              (snd (batch_loop (tool_failing_at 2) processor "in.mp4" "clips"
                      "auto" 3 0 [intro_segment] [] []) ++
               [Printed [Lit "Processing segment "; Str (PyInt 2); Lit "/";
                         Str (PyInt 3); Lit ": "; Lit "main1"]]))))
    by reflexivity.
  destruct (batch_loop_failed_extraction (tool_failing_at 2) processor
              "in.mp4" "clips" "auto" 3 0 [intro_segment] [main2_segment]
              main1_segment [] _ [] _ _ Hbefore Hfailed)
    as (Hturn & _ & Hspawned & Hfinal).
  cbn [app] in Hturn, Hfinal.
  split; [exact Hbefore|]. split; [exact Hfailed|].
  split; [rewrite Hturn; reflexivity|].
  split; [exact Hspawned|].
  destruct (Hfinal [("intro", true); ("main1", false); ("main2", true)] _
              ltac:(rewrite Hturn; reflexivity)) as (Hlater & Hfalse).
  split.
  - apply (Hlater main2_segment). left. reflexivity.
  - apply Hfalse. cbn. intros [H|[]]. discriminate H.
Defined.

(** ** Inspection *)

Lemma classify_streams_no_video (streams : list pyobj) :
  Forall not_video streams ->
  forall (video_streams audio_streams : list pyobj) (h : list event),
  exists audio_streams',
    classify_streams streams video_streams audio_streams h
    = (Ok (video_streams, audio_streams'), h).
Proof.
  induction 1 as [|stream rest (d & -> & Htype) _ IH];
    intros video_streams audio_streams h; cbn.
  - eexists. reflexivity.
  - unfold bind, lift. cbn.
    assert (Hvideo :
      py_eq_str (match dict_lookup "type" d with
                 | Some v => v
                 | None => PyNone
                 end) "video" = false).
    { destruct (dict_lookup "type" d) as [[| | | |s| |]|]; try reflexivity.
      cbn. destruct (String.eqb_spec s "video") as [->|]; congruence. }
    rewrite Hvideo.
    destruct (py_eq_str _ "audio"); apply IH.
Qed.

(** C9: when the inspect command succeeds and its document lists no stream
    tagged as video, [inspect_video] returns a [VideoInfo] whose width and
    height are the integer 0 and whose frame rate is the float 0.0. *)
Theorem inspect_video_no_video_stream
    (env : Env) (self : TrimXProcessor) (video_path : string)
    (h : list event) (out err : string) (fields : list (string * pyobj))
    (streams : list pyobj) :
  env.(spawn) (h ++ [Printed [Lit "Inspecting video: "; Lit video_path]])
    [Lit self.(trimx_path); Lit "inspect"; Lit video_path;
     Lit "--format"; Lit "json"; Lit "--show-streams"] true
  = Exited 0 out err ->
  env.(json_loads) out = Some (PyDict fields) ->
  py_iter (match dict_lookup "streams" fields with
           | Some v => v
           | None => PyList []
           end) = Ok streams ->
  Forall not_video streams ->
  exists info h',
    inspect_video env self video_path h = (Ok info, h') /\
    info.(video_streams) = [] /\
    info.(width) = PyInt 0 /\
    info.(height) = PyInt 0 /\
    info.(frame_rate) = PyFloat 0.
Proof.
  intros Hspawn Hloads Hiter Hstreams.
  unfold inspect_video, run_command, subprocess_run, try_except, bind, print,
    emit, ret, lift.
  cbn [app]. rewrite Hspawn. cbn. rewrite Hloads. cbn. rewrite Hiter.
  destruct (classify_streams_no_video streams Hstreams [] []
              ((h ++ [Printed [Lit "Inspecting video: "; Lit video_path]]) ++
               [Ran [Lit self.(trimx_path); Lit "inspect"; Lit video_path;
                     Lit "--format"; Lit "json"; Lit "--show-streams"] true]))
    as (audio & Hclassify).
  rewrite Hclassify. cbn.
  eexists. eexists. split; [reflexivity|]. cbn. auto.
Qed.

(** C9 on a file with one audio stream: the inspection returns, with no
    video stream and the three defaults. *)
Lemma inspect_video_no_video_stream_witness :
  exists info h',
    inspect_video (tool_printing audio_only_document) processor "in.mp4" []
    = (Ok info, h') /\
    info.(video_streams) = [] /\
    info.(width) = PyInt 0 /\
    info.(height) = PyInt 0 /\
    info.(frame_rate) = PyFloat 0.
Proof.
  apply (inspect_video_no_video_stream (tool_printing audio_only_document)
           processor "in.mp4" [] "<json>" ""
           [("duration", PyFloat 12.5);
            ("bit_rate", PyInt 128000);
            ("streams", PyList [PyDict [("type", PyStr "audio");
                                        ("codec", PyStr "aac")]])]
           [PyDict [("type", PyStr "audio"); ("codec", PyStr "aac")]]).
  - reflexivity.
  - reflexivity.
  - reflexivity.
  - constructor; [|constructor].
    eexists. split; [reflexivity|]. cbn. discriminate.
Defined.

(** ** Order of binary64 numbers *)

Ltac sf_cases :=
  repeat match goal with s : bool |- _ => destruct s end;
  cbn; try congruence;
  change (Pos.compare_cont Eq) with Pos.compare in *.

Lemma SFcompare_not_nan (x y : spec_float) :
  x <> S754_nan -> y <> S754_nan -> exists c, SFcompare x y = Some c.
Proof.
  destruct x, y; cbn; try congruence; eauto.
Qed.

Lemma SFcompare_swap (x y : spec_float) (c : comparison) :
  SFcompare x y = Some c -> SFcompare y x = Some (CompOpp c).
Proof.
  destruct x as [sx|sx| |sx mx ex], y as [sy|sy| |sy my ey]; cbn;
    try congruence; intros [= <-]; f_equal; sf_cases.
  all: rewrite (Z.compare_antisym ex ey); destruct (ex ?= ey)%Z; cbn;
    try reflexivity.
  all: rewrite (Pos.compare_antisym mx my); destruct (mx ?= my)%positive;
    reflexivity.
Qed.

Lemma SFltb_SFleb_trans (x y z : spec_float) :
  SFltb x y = true -> SFleb y z = true -> SFltb x z = true.
Proof.
  unfold SFltb, SFleb.
  destruct x as [sx|sx| |sx mx ex], y as [sy|sy| |sy my ey],
    z as [sz|sz| |sz mz ez]; cbn; try congruence; sf_cases.
  all: destruct (Z.compare_spec ex ey), (Z.compare_spec ey ez),
         (Z.compare_spec ex ez); try congruence; try lia.
  all: subst; destruct (Pos.compare_spec mx my), (Pos.compare_spec my mz),
         (Pos.compare_spec mx mz); cbn; try congruence; try lia.
Qed.

Lemma SFltb_SFleb (x y : spec_float) : SFltb x y = true -> SFleb x y = true.
Proof. unfold SFltb, SFleb. destruct (SFcompare x y) as [[| |]|]; congruence. Qed.

Lemma SFeqb_refl_not_nan (x : spec_float) : SFeqb x x = true -> x <> S754_nan.
Proof. intros H ->. discriminate H. Qed.

Lemma SFltb_false_SFleb (x y : spec_float) :
  x <> S754_nan -> y <> S754_nan -> SFltb x y = false -> SFleb y x = true.
Proof.
  intros Hx Hy. destruct (SFcompare_not_nan x y Hx Hy) as (c & Hc).
  unfold SFltb, SFleb. rewrite (SFcompare_swap x y c Hc), Hc.
  destruct c; cbn; congruence.
Qed.

Lemma not_nan_spec (x : float) : is_nan x = false -> Prim2SF x <> S754_nan.
Proof.
  unfold is_nan. rewrite eqb_spec. intros H.
  apply SFeqb_refl_not_nan. destruct (SFeqb _ _); [reflexivity|discriminate].
Qed.

Lemma ltb_leb_trans (x y z : float) :
  (x <? y)%float = true -> (y <=? z)%float = true -> (x <? z)%float = true.
Proof. rewrite !ltb_spec, leb_spec. apply SFltb_SFleb_trans. Qed.

Lemma ltb_leb (x y : float) :
  (x <? y)%float = true -> (x <=? y)%float = true.
Proof. rewrite ltb_spec, leb_spec. apply SFltb_SFleb. Qed.

Lemma ltb_false_leb (x y : float) :
  is_nan x = false -> is_nan y = false ->
  (x <? y)%float = false -> (y <=? x)%float = true.
Proof.
  intros Hx Hy. rewrite ltb_spec, leb_spec.
  apply SFltb_false_SFleb; apply not_nan_spec; assumption.
Qed.

Lemma leb_refl (x : float) : is_nan x = false -> (x <=? x)%float = true.
Proof.
  unfold is_nan. rewrite eqb_spec, leb_spec. unfold SFeqb, SFleb.
  destruct (SFcompare _ _) as [[| |]|]; cbn; congruence.
Qed.

(** ** Subtraction of finite numbers is a number *)

Lemma iter_pos_invariant {A : Type} (P : A -> Prop) (f : A -> A) :
  (forall x, P x -> P (f x)) ->
  forall (p : positive) (x : A), P x -> P (iter_pos f p x).
Proof.
  intros Hf. induction p as [p IH|p IH|]; intros x Hx; cbn; auto.
Qed.

Lemma shr_1_nonneg (mrs : shr_record) :
  (0 <= shr_m mrs)%Z -> (0 <= shr_m (shr_1 mrs))%Z.
Proof.
  destruct mrs as [m r s]. cbn.
  destruct m as [|[p|p|]|[p|p|]]; cbn; lia.
Qed.

Lemma shr_fexp_nonneg (m e : Z) (l : location) :
  (0 <= m)%Z -> (0 <= shr_m (fst (shr_fexp prec emax m e l)))%Z.
Proof.
  intros Hm. unfold shr_fexp, shr.
  assert (H0 : (0 <= shr_m (shr_record_of_loc m l))%Z).
  { destruct l as [|[| |]]; exact Hm. }
  destruct (_ - e)%Z; cbn [fst]; try exact H0.
  apply (iter_pos_invariant (fun mrs => (0 <= shr_m mrs)%Z)); [|exact H0].
  exact shr_1_nonneg.
Qed.

Lemma round_nearest_even_nonneg (m : Z) (l : location) :
  (0 <= m)%Z -> (0 <= round_nearest_even m l)%Z.
Proof.
  intros Hm. destruct l as [|[| |]]; cbn; try lia.
  destruct (Z.even m); lia.
Qed.

Lemma binary_round_aux_not_nan (s : bool) (m e : Z) (l : location) :
  (0 <= m)%Z -> binary_round_aux prec emax s m e l <> S754_nan.
Proof.
  intros Hm. unfold binary_round_aux.
  pose proof (shr_fexp_nonneg m e l Hm) as H1.
  destruct (shr_fexp prec emax m e l) as [mrs' e']. cbn [fst] in H1.
  pose proof (shr_fexp_nonneg _ e' loc_Exact
                (round_nearest_even_nonneg _ (loc_of_shr_record mrs') H1)) as H2.
  destruct (shr_fexp prec emax _ e' loc_Exact) as [mrs'' e'']. cbn [fst] in H2.
  destruct (shr_m mrs''); try lia; [discriminate|].
  destruct (_ <=? _)%Z; discriminate.
Qed.

Lemma binary_normalize_not_nan (m e : Z) (szero : bool) :
  binary_normalize prec emax m e szero <> S754_nan.
Proof.
  destruct m as [|p|p]; cbn; [discriminate| |];
    unfold binary_round; destruct (shl_align _ _ _) as [mz ez];
    apply binary_round_aux_not_nan; lia.
Qed.

(** What [Prim2SF] makes of a finite number. *)
Lemma finite_spec (x : float) :
  is_finite x = true ->
  (exists s, Prim2SF x = S754_zero s) \/
  (exists s m e, Prim2SF x = S754_finite s m e).
Proof.
  unfold is_finite, Prim2SF.
  destruct (is_nan x); [discriminate|].
  destruct (is_infinity x); [discriminate|]. intros _.
  destruct (is_zero x); [eauto|].
  destruct (Z.frexp x) as [r exp].
  destruct (shr_fexp _ _ _ _ _) as [shr e'].
  destruct (shr_m shr); eauto 6.
Qed.

Lemma is_nan_spec (x : float) : Prim2SF x <> S754_nan -> is_nan x = false.
Proof.
  unfold Prim2SF. destruct (is_nan x); [congruence | reflexivity].
Qed.

Lemma finite_distance_number (desired t : float) :
  is_finite t = true -> is_finite desired = true ->
  is_nan (distance desired t) = false.
Proof.
  intros Ht Hd. unfold distance. apply is_nan_spec.
  rewrite abs_spec, sub_spec.
  destruct (finite_spec t Ht) as [(s & ->)|(s & m & e & ->)],
    (finite_spec desired Hd) as [(s' & ->)|(s' & m' & e' & ->)].
  - destruct s, s'; discriminate.
  - discriminate.
  - discriminate.
  - unfold SF64sub, SFsub.
    pose proof (binary_normalize_not_nan
      (cond_Zopp s (Z.pos (fst (shl_align m e (Z.min e e')))) -
       cond_Zopp s' (Z.pos (fst (shl_align m' e' (Z.min e e')))))
      (Z.min e e') false) as H.
    destruct (binary_normalize _ _ _ _ _); try discriminate.
    contradiction.
Qed.

(** ** Cut points *)

Lemma timestamp_distance_typed (desired : float) (k : pyobj) (t : float)
    (h : list event) :
  has_timestamp k t ->
  timestamp_distance desired k h = (Ok (distance desired t), h).
Proof.
  intros (d & -> & Hts).
  unfold timestamp_distance, bind, lift, ret. cbn. rewrite Hts. reflexivity.
Qed.

Lemma getitem_timestamp_typed (k : pyobj) (t : float) :
  has_timestamp k t -> py_getitem k "timestamp" = Ok (PyFloat t).
Proof. intros (d & -> & Hts). cbn. rewrite Hts. reflexivity. Qed.

(** The scan of [min] keeps the first nearest timestamp: if the item held
    is the first nearest of what was seen, so is the item returned, of
    everything. *)
Lemma min_scan_first_nearest (desired : float) (items : list pyobj) :
  forall (ts : list float),
    Forall2 has_timestamp items ts ->
    Forall (fun t => is_nan (distance desired t) = false) ts ->
    forall (seen_before seen_after : list float) (k0 : pyobj) (t0 : float)
           (h : list event),
      has_timestamp k0 t0 ->
      is_nan (distance desired t0) = false ->
      first_nearest desired seen_before t0 seen_after ->
      exists k before t after,
        min_scan (timestamp_distance desired) items k0 (distance desired t0) h
        = (Ok k, h) /\
        has_timestamp k t /\
        seen_before ++ t0 :: seen_after ++ ts = before ++ t :: after /\
        first_nearest desired before t after.
Proof.
  induction items as [|k1 items IH]; intros ts Htyped Hnum;
    inversion Htyped as [|? t1 ? ts' Hk1 Hrest]; subst;
    intros seen_before seen_after k0 t0 h Hk0 Hnum0 (Hbefore & Hafter).
  - exists k0, seen_before, t0, seen_after. cbn. unfold ret.
    rewrite app_nil_r. repeat split; assumption.
  - apply Forall_cons_iff in Hnum as (Hnum1 & Hnum).
    cbn [min_scan]. unfold bind at 1.
    rewrite (timestamp_distance_typed desired k1 t1 h Hk1).
    destruct (distance desired t1 <? distance desired t0)%float eqn:Hlt.
    + destruct (IH ts' Hrest Hnum (seen_before ++ t0 :: seen_after) [] k1 t1 h
                  Hk1 Hnum1) as (k & before & t & after & Hrun & Hk & Hsplit & Hnear).
      { split; [|constructor].
        apply Forall_app. split; [|constructor].
        - eapply Forall_impl; [|exact Hbefore]. cbn. intros u Hu.
          eapply ltb_leb_trans; [exact Hlt | apply ltb_leb; exact Hu].
        - exact Hlt.
        - eapply Forall_impl; [|exact Hafter]. cbn. intros u Hu.
          eapply ltb_leb_trans; [exact Hlt | exact Hu]. }
      exists k, before, t, after. repeat split; try assumption; try apply Hnear.
      rewrite <- Hsplit, <- !app_assoc. reflexivity.
    + destruct (IH ts' Hrest Hnum seen_before (seen_after ++ [t1]) k0 t0 h
                  Hk0 Hnum0) as (k & before & t & after & Hrun & Hk & Hsplit & Hnear).
      { split; [exact Hbefore|].
        apply Forall_app. split; [exact Hafter|]. constructor; [|constructor].
        apply ltb_false_leb; assumption. }
      exists k, before, t, after. repeat split; try assumption; try apply Hnear.
      rewrite <- Hsplit, <- !app_assoc. reflexivity.
Qed.

Lemma py_min_first_nearest (desired : float) (ks : list pyobj)
    (ts : list float) (h : list event) :
  ks <> [] ->
  Forall2 has_timestamp ks ts ->
  Forall (fun t => is_nan (distance desired t) = false) ts ->
  exists k before t after,
    py_min (PyList ks) (timestamp_distance desired) h = (Ok k, h) /\
    has_timestamp k t /\
    ts = before ++ t :: after /\
    first_nearest desired before t after.
Proof.
  intros Hne Htyped Hnum.
  destruct Htyped as [|k0 t0 ks ts Hk0 Hrest]; [contradiction|].
  apply Forall_cons_iff in Hnum as (Hnum0 & Hnum).
  cbv beta iota delta [py_min bind lift py_iter].
  rewrite (timestamp_distance_typed desired k0 t0 h Hk0).
  destruct (min_scan_first_nearest desired ks ts Hrest Hnum [] [] k0 t0 h
              Hk0 Hnum0) as (k & before & t & after & Hrun & Hk & Hsplit & Hnear).
  { split; constructor. }
  exists k, before, t, after. auto.
Qed.

(** [optimal_cut_points] once the two nearest keyframes are known. *)
Lemma optimal_cut_points_selected (ks : list pyobj)
    (desired_start desired_end tolerance : float) (h : list event)
    (k_start k_end : pyobj) (t_start t_end : float) :
  ks <> [] ->
  py_min (PyList ks) (timestamp_distance desired_start) h = (Ok k_start, h) ->
  py_min (PyList ks) (timestamp_distance desired_end) h = (Ok k_end, h) ->
  has_timestamp k_start t_start ->
  has_timestamp k_end t_end ->
  optimal_cut_points (PyList ks) desired_start desired_end tolerance h
  = (Ok (snap desired_start tolerance t_start,
         snap desired_end tolerance t_end),
     h ++ [optimal_message (snap desired_start tolerance t_start)
             (snap desired_end tolerance t_end)]).
Proof.
  intros Hne Hstart Hend Hks Hke.
  unfold optimal_cut_points.
  destruct ks as [|k ks]; [contradiction|]. cbn [truthy negb].
  unfold bind at 1. rewrite Hstart.
  unfold bind at 1. rewrite Hend.
  unfold bind at 1.
  rewrite (timestamp_distance_typed desired_start k_start t_start h Hks).
  unfold bind at 1. unfold snap, optimal_message.
  destruct (distance desired_start t_start <=? tolerance)%float;
    unfold lift, ret, bind at 1;
    rewrite ?(getitem_timestamp_typed k_start t_start Hks);
    rewrite (timestamp_distance_typed desired_end k_end t_end h Hke);
    unfold bind at 1;
    destruct (distance desired_end t_end <=? tolerance)%float;
    rewrite ?(getitem_timestamp_typed k_end t_end Hke);
    reflexivity.
Qed.

(** C3: on a non-empty list of keyframes (records whose timestamps are
    finite floats, for finite desired times), each boundary is decided by
    the keyframe nearest to the desired time, the first one among equals:
    the boundary is that keyframe's timestamp when the distance is at most
    the tolerance, and the desired time otherwise.  In particular,
    keyframes 2.0, 9.0, 20.0 with the window 8.5 to 18.2 and tolerance 2.0
    give 9.0 and 20.0. *)
Theorem optimal_cut_points_nearest :
  (forall (ks : list pyobj) (ts : list float)
          (desired_start desired_end tolerance : float) (h : list event),
      ks <> [] ->
      Forall2 has_timestamp ks ts ->
      Forall (fun t => is_finite t = true) ts ->
      is_finite desired_start = true ->
      is_finite desired_end = true ->
      exists before_start t_start after_start before_end t_end after_end,
        ts = before_start ++ t_start :: after_start /\
        first_nearest desired_start before_start t_start after_start /\
        ts = before_end ++ t_end :: after_end /\
        first_nearest desired_end before_end t_end after_end /\
        optimal_cut_points (PyList ks) desired_start desired_end tolerance h
        = (Ok (if (distance desired_start t_start <=? tolerance)%float
               then PyFloat t_start else PyFloat desired_start,
               if (distance desired_end t_end <=? tolerance)%float
               then PyFloat t_end else PyFloat desired_end),
           h ++ [optimal_message (snap desired_start tolerance t_start)
                   (snap desired_end tolerance t_end)])) /\
  fst (optimal_cut_points (PyList [keyframe 2; keyframe 9; keyframe 20])
         8.5 18.2 2 [])
  = Ok (PyFloat 9, PyFloat 20).
Proof.
  split; [|reflexivity].
  intros ks ts desired_start desired_end tolerance h Hne Htyped Hfinite
    Hstart Hend.
  assert (Hnum : forall desired, is_finite desired = true ->
            Forall (fun t => is_nan (distance desired t) = false) ts).
  { intros desired Hd. eapply Forall_impl; [|exact Hfinite].
    intros t Ht. apply finite_distance_number; assumption. }
  destruct (py_min_first_nearest desired_start ks ts h Hne Htyped
              (Hnum _ Hstart))
    as (ks_ & before_s & t_s & after_s & Hmin_s & Hks & Hsplit_s & Hnear_s).
  destruct (py_min_first_nearest desired_end ks ts h Hne Htyped
              (Hnum _ Hend))
    as (ke & before_e & t_e & after_e & Hmin_e & Hke & Hsplit_e & Hnear_e).
  exists before_s, t_s, after_s, before_e, t_e, after_e.
  repeat (split; [assumption|]).
  exact (optimal_cut_points_selected ks desired_start desired_end tolerance h
           ks_ ke t_s t_e Hne Hmin_s Hmin_e Hks Hke).
Qed.

(** C3 on the keyframes 2.0, 9.0, 20.0: the window 8.5 to 18.2 is moved
    to 9.0 (at distance 0.5) and 20.0 (at distance 1.8). *)
Lemma optimal_cut_points_nearest_witness :
  let ts := [2; 9; 20]%float in
  exists before_start t_start after_start before_end t_end after_end,
    ts = before_start ++ t_start :: after_start /\
    first_nearest 8.5 before_start t_start after_start /\
    ts = before_end ++ t_end :: after_end /\
    first_nearest 18.2 before_end t_end after_end /\
    optimal_cut_points (PyList (map keyframe ts)) 8.5 18.2 2 []
    = (Ok (if (distance 8.5 t_start <=? 2)%float
           then PyFloat t_start else PyFloat 8.5,
           if (distance 18.2 t_end <=? 2)%float
           then PyFloat t_end else PyFloat 18.2),
       [] ++ [optimal_message (snap 8.5 2 t_start) (snap 18.2 2 t_end)]).
Proof.
  apply (proj1 optimal_cut_points_nearest
           (map keyframe [2; 9; 20]%float) [2; 9; 20]%float
           8.5%float 18.2%float 2%float []).
  - discriminate.
  - repeat constructor; (eexists; split; reflexivity).
  - repeat constructor.
  - reflexivity.
  - reflexivity.
Defined.

(** C4: with an empty list of keyframes the desired window comes back as
    it is, whatever the window and the tolerance: for the body of
    [find_optimal_cut_points], and for the method when the tool reports no
    keyframe. *)
Theorem optimal_cut_points_no_keyframes :
  (forall (desired_start desired_end tolerance : float) (h : list event),
      optimal_cut_points (PyList []) desired_start desired_end tolerance h
      = (Ok (PyFloat desired_start, PyFloat desired_end),
         h ++ [Printed [Lit "No keyframes found, using desired times"]])) /\
  (forall (env : Env) (self : TrimXProcessor) (video_path : string)
          (desired_start desired_end tolerance : float) (h h' : list event),
      analyze_keyframes env self video_path h = (Ok (PyList []), h') ->
      find_optimal_cut_points env self video_path desired_start desired_end
        tolerance h
      = (Ok (PyFloat desired_start, PyFloat desired_end),
         h' ++ [Printed [Lit "No keyframes found, using desired times"]])).
Proof.
  split.
  - reflexivity.
  - intros env self video_path desired_start desired_end tolerance h h' Hk.
    unfold find_optimal_cut_points, bind at 1. rewrite Hk. reflexivity.
Qed.

(** C4 on a tool whose document has an empty keyframe list. *)
Lemma optimal_cut_points_no_keyframes_witness :
  let env := tool_printing (PyDict [("keyframes", PyList [])]) in
  let analysis := analyze_keyframes env processor "in.mp4" [] in
  analysis = (Ok (PyList []), snd analysis) /\
  find_optimal_cut_points env processor "in.mp4" 8.5 18.2 2 []
  = (Ok (PyFloat 8.5, PyFloat 18.2),
     snd analysis ++ [Printed [Lit "No keyframes found, using desired times"]]).
Proof.
  cbv zeta.
  assert (Hk :
    analyze_keyframes (tool_printing (PyDict [("keyframes", PyList [])]))
      processor "in.mp4" []
    = (Ok (PyList []),
       snd (analyze_keyframes
              (tool_printing (PyDict [("keyframes", PyList [])]))
              processor "in.mp4" []))) by reflexivity.
  split; [exact Hk|].
  exact (proj2 optimal_cut_points_no_keyframes
           (tool_printing (PyDict [("keyframes", PyList [])])) processor
           "in.mp4" 8.5%float 18.2%float 2%float [] _ Hk).
Defined.

(** Without any assumption on the numbers, the scan of [min] over keyframe
    records returns one of them and logs nothing. *)
Lemma min_scan_typed (desired : float) (items : list pyobj) (ts : list float) :
  Forall2 has_timestamp items ts ->
  forall (k0 : pyobj) (t0 minval : float),
    has_timestamp k0 t0 ->
    exists k t,
      has_timestamp k t /\
      forall h, min_scan (timestamp_distance desired) items k0 minval h
                = (Ok k, h).
Proof.
  induction 1 as [|k1 t1 items ts Hk1 _ IH]; intros k0 t0 minval Hk0.
  - exists k0, t0. split; [exact Hk0 | reflexivity].
  - destruct (distance desired t1 <? minval)%float eqn:Hlt.
    + destruct (IH k1 t1 (distance desired t1) Hk1) as (k & t & Hk & Hrun).
      exists k, t. split; [exact Hk|]. intros h.
      cbn [min_scan]. unfold bind at 1.
      rewrite (timestamp_distance_typed desired k1 t1 h Hk1), Hlt. apply Hrun.
    + destruct (IH k0 t0 minval Hk0) as (k & t & Hk & Hrun).
      exists k, t. split; [exact Hk|]. intros h.
      cbn [min_scan]. unfold bind at 1.
      rewrite (timestamp_distance_typed desired k1 t1 h Hk1), Hlt. apply Hrun.
Qed.

Lemma py_min_typed (desired : float) (ks : list pyobj) (ts : list float) :
  ks <> [] ->
  Forall2 has_timestamp ks ts ->
  exists k t,
    has_timestamp k t /\
    forall h, py_min (PyList ks) (timestamp_distance desired) h = (Ok k, h).
Proof.
  intros Hne Htyped.
  destruct Htyped as [|k0 t0 ks ts Hk0 Hrest]; [contradiction|].
  destruct (min_scan_typed desired ks ts Hrest k0 t0 (distance desired t0) Hk0)
    as (k & t & Hk & Hrun).
  exists k, t. split; [exact Hk|]. intros h.
  cbv beta iota delta [py_min bind lift py_iter].
  rewrite (timestamp_distance_typed desired k0 t0 h Hk0). apply Hrun.
Qed.

(** C5: the two boundaries are computed one without the other: given the
    keyframes and the tolerance, one function of the desired time yields
    the start from the desired start and the end from the desired end, and
    the pair is returned as it is, in whatever order the two values come.
    They can meet: one keyframe at 10.0 moves the window 9.0 to 9.5 onto
    10.0 and 10.0, which is returned unchanged. *)
Theorem optimal_cut_points_independent :
  (forall (ks : list pyobj) (ts : list float) (tolerance : float),
      ks <> [] ->
      Forall2 has_timestamp ks ts ->
      exists boundary : float -> pyobj,
        forall (desired_start desired_end : float) (h : list event),
          optimal_cut_points (PyList ks) desired_start desired_end tolerance h
          = (Ok (boundary desired_start, boundary desired_end),
             h ++ [optimal_message (boundary desired_start)
                     (boundary desired_end)])) /\
  ((9 <? 9.5)%float = true /\
   optimal_cut_points (PyList [keyframe 10]) 9 9.5 2 []
   = (Ok (PyFloat 10, PyFloat 10),
      [optimal_message (PyFloat 10) (PyFloat 10)]) /\
   (10 <=? 10)%float = true).
Proof.
  split.
  - intros ks ts tolerance Hne Htyped.
    exists (fun desired =>
              match fst (py_min (PyList ks) (timestamp_distance desired) [])
              with
              | Ok (PyDict fields) =>
                  match dict_lookup "timestamp" fields with
                  | Some (PyFloat t) => snap desired tolerance t
                  | _ => PyNone
                  end
              | _ => PyNone
              end).
    intros desired_start desired_end h.
    destruct (py_min_typed desired_start ks ts Hne Htyped)
      as (k_s & t_s & Hks & Hmin_s).
    destruct (py_min_typed desired_end ks ts Hne Htyped)
      as (k_e & t_e & Hke & Hmin_e).
    rewrite (optimal_cut_points_selected ks desired_start desired_end
               tolerance h k_s k_e t_s t_e Hne (Hmin_s h) (Hmin_e h) Hks Hke).
    rewrite (Hmin_s []), (Hmin_e []). cbn [fst].
    destruct Hks as (d_s & -> & ->), Hke as (d_e & -> & ->). reflexivity.
  - repeat split.
Qed.

(** C5 on two timestamps: whatever the desired end, the start computed for
    the desired start 8.5 is the same. *)
Lemma optimal_cut_points_independent_witness :
  let ks := [keyframe 2; keyframe 9] in
  ks <> [] /\
  Forall2 has_timestamp ks [2; 9]%float /\
  exists boundary : float -> pyobj,
    forall (desired_start desired_end : float) (h : list event),
      optimal_cut_points (PyList ks) desired_start desired_end 2 h
      = (Ok (boundary desired_start, boundary desired_end),
         h ++ [optimal_message (boundary desired_start)
                 (boundary desired_end)]).
Proof.
  cbv zeta.
  assert (Hne : [keyframe 2; keyframe 9] <> []) by discriminate.
  assert (Htyped : Forall2 has_timestamp [keyframe 2; keyframe 9] [2; 9]%float)
    by (repeat constructor; (eexists; split; reflexivity)).
  split; [exact Hne|]. split; [exact Htyped|].
  exact (proj1 optimal_cut_points_independent [keyframe 2; keyframe 9]
           [2; 9]%float 2%float Hne Htyped).
Defined.

(** Why finite times are asked for: a distance that is not a number is not
    ordered.  A keyframe whose timestamp is NaN, once held by [min], is
    never replaced, since no key is smaller than NaN; and NaN is within
    no tolerance. *)
Remark optimal_cut_points_nan_held :
  fst (optimal_cut_points (PyList [keyframe nan; keyframe 9]) 8.5 18.2 2 [])
  = Ok (PyFloat 8.5, PyFloat 18.2).
Proof. reflexivity. Qed.

(** * Further properties *)

(** ** Running the tool *)

(** [run_command] case by case. *)
Lemma run_command_run (env : Env) (self : TrimXProcessor) (args : list piece)
    (capture_output : bool) (h : list event) :
  let cmd := Lit self.(trimx_path) :: args in
  let captured (s : string) := if capture_output then PyStr s else PyNone in
  run_command env self args capture_output h
  = match env.(spawn) h cmd capture_output with
    | Exited rc out err =>
        if (rc =? 0)%Z
        then (Ok {| stdout := captured out |}, h ++ [Ran cmd capture_output])
        else (Raise (CalledProcessError rc (captured err)),
              h ++ [Ran cmd capture_output]
                ++ failure_report cmd rc (captured err))
    | NotFound =>
        (Raise FileNotFoundError,
         h ++ [Ran cmd capture_output] ++ missing_report self)
    end.
Proof.
  unfold run_command, subprocess_run, try_except, bind, print, emit, ret,
    raise, failure_report, missing_report.
  cbn [app].
  destruct (spawn env h _ capture_output) as [rc out err|];
    [destruct (rc =? 0)%Z|]; rewrite <- ?app_assoc; reflexivity.
Qed.

(** The lines of the two reports are printed lines. *)
Lemma spawned_failure_report (cmd : list piece) (rc : Z) (stderr : pyobj) :
  spawned (failure_report cmd rc stderr) = [].
Proof. reflexivity. Qed.


(** X2: [verify_clip] compares nothing itself.  It spawns one verify
    command that carries the path, the expected bounds and the tolerance as
    given, and answers [True] for exit status 0, [False] for any other
    status; a missing executable is a [FileNotFoundError] for the caller. *)
Theorem verify_clip_answer (env : Env) (self : TrimXProcessor)
    (clip_path : string) (expected_start expected_end tolerance : float)
    (h : list event) :
  exists tail,
    let log := h ++ [Printed [Lit "Verifying clip: "; Lit clip_path]] in
    let cmd := verify_command self clip_path expected_start expected_end
                 tolerance in
    let run := verify_clip env self clip_path expected_start expected_end
                 tolerance h in
    snd run = log ++ [Ran cmd false] ++ tail /\
    spawned tail = [] /\
    fst run = match env.(spawn) log cmd false with
              | Exited rc _ _ => if (rc =? 0)%Z then Ok true else Ok false
              | NotFound => Raise FileNotFoundError
              end.
Proof.
  destruct (verify_clip_run env self clip_path expected_start expected_end
              tolerance h) as (tail & H).
  cbv zeta in H. destruct H as (Htail & Hrun).
  exists tail. cbv zeta. rewrite Hrun. cbn [fst snd]. unfold verify_command.
  split; [reflexivity|]. split; [exact Htail|].
  destruct (spawn env _ _ false) as [rc out err|]; [|reflexivity].
  destruct (rc =? 0)%Z; reflexivity.
Qed.

(** X3: [create_sample_video] spawns [ffmpeg] once, with the duration in
    decimal in both synthetic inputs and the output path last, after [-y].
    It answers [True] for exit status 0 and [False] for any other status,
    and prints no report; a missing [ffmpeg] is a [FileNotFoundError] for
    the caller. *)
Theorem create_sample_video_answer (env : Env) (output_path : string)
    (duration : Z) (h : list event) :
  let log := h ++ [Printed [Lit "Creating sample video: "; Lit output_path;
                            Lit " ("; Str (PyInt duration); Lit "s)"]] in
  let cmd :=
    [Lit "ffmpeg"; Lit "-f"; Lit "lavfi"; Lit "-i";
     Lit ("testsrc=duration=" ++ str_int duration ++ ":size=640x480:rate=30");
     Lit "-f"; Lit "lavfi"; Lit "-i";
     Lit ("sine=frequency=1000:duration=" ++ str_int duration);
     Lit "-c:v"; Lit "libx264"; Lit "-c:a"; Lit "aac"; Lit "-shortest";
     Lit "-y"; Lit output_path] in
  create_sample_video env output_path duration h
  = (match env.(spawn) log cmd true with
     | Exited rc _ _ => if (rc =? 0)%Z then Ok true else Ok false
     | NotFound => Raise FileNotFoundError
     end,
     log ++ [Ran cmd true]).
Proof.
  cbv zeta.
  unfold create_sample_video, subprocess_run, try_except, bind, print, emit,
    ret, raise.
  destruct (spawn env _ _ true) as [rc out err|]; [|reflexivity].
  destruct (rc =? 0)%Z; reflexivity.
Qed.

(** ** More on the batch *)

Section BatchTurns.

Variable env : Env.
Variable self : TrimXProcessor.
Variables (video_path output_dir mode : string).
Variable total : nat.

(** The path of the clip of a segment. *)
Let clip_path (segment : ClipSegment) : string :=
  env.(path_join) output_dir (segment.(name) ++ ".mp4").

(** The line printed at the start of a turn. *)
Let processing (i : nat) (segment : ClipSegment) : event :=
  Printed [Lit "Processing segment "; Str (PyInt (Z.of_nat i + 1)); Lit "/";
           Str (PyInt (Z.of_nat total)); Lit ": "; Lit segment.(name)].

(** A turn is an extraction, then a verification when the extraction
    answered [True]. *)
Lemma segment_outcome_turn (i : nat) (segment : ClipSegment) (h : list event) :
  segment_outcome env self video_path output_dir mode total i segment h
  = match extract_clip env self video_path segment.(start_time)
            segment.(end_time) (clip_path segment) mode None
            (h ++ [processing i segment]) with
    | (Ok true, h') =>
        verify_clip env self (clip_path segment) segment.(start_time)
          segment.(end_time) default_verify_tolerance h'
    | (Ok false, h') => (Ok false, h')
    | (Raise e, h') => (Raise e, h')
    end.
Proof.
  unfold segment_outcome, clip_path, processing, bind, print, emit, ret.
  match goal with
  | |- context [extract_clip env self ?v ?s ?e ?o ?m ?q ?l] =>
      destruct (extract_clip env self v s e o m q l) as [[[|]|e'] h']
  end; reflexivity.
Qed.

(** What a turn spawns, and what it can raise. *)
Lemma segment_outcome_spawned (i : nat) (segment : ClipSegment)
    (h : list event) :
  exists (extracted : bool) (h' : list event) (r : result bool),
    segment_outcome env self video_path output_dir mode total i segment h
    = (r, h') /\
    spawned h'
    = spawned h ++
      clip_command self video_path (clip_path segment) mode segment ::
      (if extracted
       then [verify_command self (clip_path segment) segment.(start_time)
               segment.(end_time) default_verify_tolerance]
       else []) /\
    (r = Ok true -> extracted = true) /\
    (forall e, r = Raise e -> e = FileNotFoundError).
Proof.
  rewrite segment_outcome_turn.
  destruct (extract_clip_run env self video_path (clip_path segment) mode
              segment.(start_time) segment.(end_time) None
              (h ++ [processing i segment])) as (options & tail & H).
  cbv zeta in H. destruct H as (Hopt & Htail & Hrun).
  cbn in Hopt. subst options. rewrite app_nil_r in Hrun.
  fold (clip_command self video_path (clip_path segment) mode segment)
    in Hrun.
  destruct (extract_clip _ _ _ _ _ _ _ _ _) as [r1 h1].
  injection Hrun as Hr Hh.
  assert (Hs1 : spawned h1
                = spawned h ++
                  [clip_command self video_path (clip_path segment) mode
                     segment]).
  { rewrite Hh, !spawned_app. cbn [spawned]. rewrite Htail. cbn.
    rewrite !app_nil_r. reflexivity. }
  clear Hh Htail.
  destruct r1 as [[|]|e].
  - destruct (verify_clip_run env self (clip_path segment)
                segment.(start_time) segment.(end_time)
                default_verify_tolerance h1) as (tail' & H).
    cbv zeta in H. destruct H as (Htail' & Hverify).
    fold (verify_command self (clip_path segment) segment.(start_time)
            segment.(end_time) default_verify_tolerance) in Hverify.
    rewrite Hverify.
    exists true. eexists. eexists. split; [reflexivity|].
    split; [|split].
    + rewrite !spawned_app. cbn [spawned]. rewrite Htail', Hs1. cbn.
      rewrite <- !app_assoc. reflexivity.
    + reflexivity.
    + intros e.
      match goal with
      | |- context [spawn env ?l ?c false] =>
          destruct (spawn env l c false) as [rc' out' err'|]
      end; [discriminate | intros [= <-]; reflexivity].
  - exists false. eexists. eexists. split; [reflexivity|].
    split; [exact Hs1|]. split; discriminate.
  - exists false. eexists. eexists. split; [reflexivity|].
    split; [exact Hs1|]. split; [discriminate|].
    intros e' [= <-].
    destruct (spawn env _ _ false) as [rc out err|]; [discriminate|].
    injection Hr as ->. reflexivity.
Qed.

End BatchTurns.



(** X4: when the extraction of a segment answers [True], its turn spawns
    the clip command and then the verify command, on the same output path,
    with the segment's own times and the tolerance 0.5; the answer of the
    verification, [True] or [False], is what is stored under the segment's
    name, and the loop goes on with the segments after it. *)
Theorem batch_loop_verified_extraction
    (env : Env) (self : TrimXProcessor) (video_path output_dir mode : string)
    (total i : nat) (before after : list ClipSegment) (segment : ClipSegment)
    (results results1 : results_dict) (h h1 h2 h3 : list event)
    (verified : bool) :
  let output_path := env.(path_join) output_dir (segment.(name) ++ ".mp4") in
  batch_loop env self video_path output_dir mode total i before results h
  = (Ok results1, h1) ->
  extract_clip env self video_path segment.(start_time) segment.(end_time)
    output_path mode None
    (h1 ++ [Printed [Lit "Processing segment ";
                     Str (PyInt (Z.of_nat (i + List.length before) + 1));
                     Lit "/"; Str (PyInt (Z.of_nat total)); Lit ": ";
                     Lit segment.(name)]])
  = (Ok true, h2) ->
  verify_clip env self output_path segment.(start_time) segment.(end_time)
    0.5 h2
  = (Ok verified, h3) ->
  batch_loop env self video_path output_dir mode total i
    (before ++ segment :: after) results h
  = batch_loop env self video_path output_dir mode total
      (S (i + List.length before)) after
      (dict_set segment.(name) verified results1) h3 /\
  dict_lookup segment.(name) (dict_set segment.(name) verified results1)
  = Some verified /\
  spawned h3
  = spawned h1 ++
    [clip_command self video_path output_path mode segment;
     verify_command self output_path segment.(start_time)
       segment.(end_time) 0.5].
Proof.
  cbv zeta. intros Hbefore Hextract Hverify.
  split; [|split].
  - rewrite batch_loop_app, Hbefore, batch_loop_turn, segment_outcome_turn.
    rewrite Hextract. unfold default_verify_tolerance. rewrite Hverify.
    reflexivity.
  - apply dict_lookup_set_same.
  - destruct (segment_outcome_spawned env self video_path output_dir mode
                total (i + List.length before) segment h1)
      as (ok & h' & r & Hturn & Hs & Hok & _).
    rewrite segment_outcome_turn, Hextract in Hturn.
    unfold default_verify_tolerance in Hturn, Hs.
    rewrite Hverify in Hturn. injection Hturn as <- <-.
    destruct ok; [exact Hs|].
    destruct (extract_clip_run env self video_path
                (env.(path_join) output_dir (segment.(name) ++ ".mp4")) mode
                segment.(start_time) segment.(end_time) None
                (h1 ++ [Printed [Lit "Processing segment ";
                                 Str (PyInt (Z.of_nat (i + List.length before)
                                             + 1));
                                 Lit "/"; Str (PyInt (Z.of_nat total));
                                 Lit ": "; Lit segment.(name)]]))
      as (options & tail & H).
    cbv zeta in H. destruct H as (_ & Htail & Hrun).
    rewrite Hextract in Hrun. injection Hrun as _ Hh2.
    destruct (verify_clip_run env self
                (env.(path_join) output_dir (segment.(name) ++ ".mp4"))
                segment.(start_time) segment.(end_time) 0.5%float h2)
      as (tail' & H).
    cbv zeta in H. destruct H as (_ & Hrun').
    rewrite Hverify in Hrun'. injection Hrun' as _ Hh3.
    exfalso. apply (f_equal (@List.length _)) in Hs.
    rewrite Hh3, Hh2, !spawned_app, !length_app in Hs. cbn in Hs. lia.
Qed.

(** X4 on a batch whose first verification fails (the second process
    spawned): the entry is [False] and both commands were spawned. *)
Lemma batch_loop_verified_extraction_witness :
  let env := tool_failing_at 1 in
  let extraction :=
    extract_clip env processor "in.mp4" 0 10 "clips/intro.mp4" "auto" None
      [Printed [Lit "Processing segment "; Str (PyInt 1); Lit "/";
                Str (PyInt 2); Lit ": "; Lit "intro"]] in
  let verification :=
    verify_clip env processor "clips/intro.mp4" 0 10 0.5 (snd extraction) in
  extraction = (Ok true, snd extraction) /\
  verification = (Ok false, snd verification) /\
  batch_loop env processor "in.mp4" "clips" "auto" 2 0
    [intro_segment; main1_segment] [] []
  = batch_loop env processor "in.mp4" "clips" "auto" 2 1 [main1_segment]
      [("intro", false)] (snd verification) /\
  spawned (snd verification)
  = [clip_command processor "in.mp4" "clips/intro.mp4" "auto" intro_segment;
     verify_command processor "clips/intro.mp4" 0 10 0.5].
Proof.
  cbv zeta.
  pose proof (batch_loop_verified_extraction (tool_failing_at 1) processor
                "in.mp4" "clips" "auto" 2 0 [] [main1_segment] intro_segment
                [] [] [] [] _ _ false eq_refl eq_refl eq_refl)
    as (Hloop & _ & Hspawned).
  split; [reflexivity|]. split; [reflexivity|].
  split; [exact Hloop | exact Hspawned].
Defined.








Lemma record_all_length (names : list string) :
  forall (outcomes : list bool) (d : results_dict),
    List.length (record_all names outcomes d)
    <= List.length d + List.length names.
Proof.
  assert (Hset : forall k v (d : results_dict),
            List.length (dict_set k v d) <= S (List.length d)).
  { induction d as [|[k' v'] d IHd]; cbn; [lia|].
    destruct (String.eqb k' k); cbn; lia. }
  induction names as [|n names IH]; intros [|b outcomes] d; cbn; try lia.
  specialize (IH outcomes (dict_set n b d)). specialize (Hset n b d). lia.
Qed.

(** X8: whenever the output directory can be made and the executable can
    be started, [batch_extract_clips] returns a mapping, however many
    extractions and verifications fail: a failing process never makes it
    raise. *)
Theorem batch_extract_clips_completes
    (env : Env) (self : TrimXProcessor) (video_path : string)
    (segments : list ClipSegment) (output_dir mode : string)
    (h : list event) :
  always_found env ->
  env.(makedirs_ok)
    (h ++ [Printed [Lit "Batch extracting ";
                    Str (PyInt (Z.of_nat (List.length segments)));
                    Lit " clips from "; Lit video_path]])
    output_dir = true ->
  exists results h',
    batch_extract_clips env self video_path segments output_dir mode h
    = (Ok results, h') /\
    List.length results <= List.length segments.
Proof.
  intros Hfound Hdirs.
  unfold batch_extract_clips, bind, print, emit, os_makedirs.
  rewrite Hdirs, batch_loop_outcomes.
  destruct (batch_outcomes_returns env self video_path output_dir mode
              (List.length segments) segments Hfound 0
              ((h ++ [Printed [Lit "Batch extracting ";
                               Str (PyInt (Z.of_nat (List.length segments)));
                               Lit " clips from "; Lit video_path]]) ++
               [MadeDirs output_dir]))
    as (outcomes & h' & Hrun).
  rewrite Hrun. eexists. eexists. split; [reflexivity|].
  pose proof (record_all_length (map name segments) outcomes []) as Hlen.
  rewrite length_map in Hlen. exact Hlen.
Qed.

(** X8 on a tool that is there but fails every process: both entries are
    [False], and the batch returns. *)
Lemma batch_extract_clips_completes_witness :
  always_found tool_rejecting /\
  exists results h',
    batch_extract_clips tool_rejecting processor "in.mp4"
      [intro_segment; main1_segment] "clips" "auto" []
    = (Ok results, h') /\
    List.length results <= 2.
Proof.
  assert (Hfound : always_found tool_rejecting)
    by (intros h cmd c; discriminate).
  split; [exact Hfound|].
  exact (batch_extract_clips_completes tool_rejecting processor "in.mp4"
           [intro_segment; main1_segment] "clips" "auto" [] Hfound eq_refl).
Defined.

(** ** More on inspection *)

(** On stream records, the loop of [inspect_video] is two filters. *)
Lemma classify_streams_filters (streams : list pyobj) :
  Forall is_dict streams ->
  forall (video_streams audio_streams : list pyobj) (h : list event),
    classify_streams streams video_streams audio_streams h
    = (Ok (video_streams ++ filter (tagged "video") streams,
           audio_streams ++ filter (tagged "audio") streams), h).
Proof.
  induction 1 as [|stream rest (d & ->) _ IH];
    intros video_streams audio_streams h; cbn [classify_streams filter].
  - rewrite !app_nil_r. reflexivity.
  - unfold bind at 1, lift. cbn [py_get tagged]. fold (field_or d "type" PyNone).
    destruct (py_eq_str (field_or d "type" PyNone) "video") eqn:Hvideo.
    + rewrite IH, <- app_assoc. cbn [app].
      assert (Haudio : py_eq_str (field_or d "type" PyNone) "audio" = false).
      { destruct (field_or d "type" PyNone); try discriminate. cbn in *.
        apply String.eqb_eq in Hvideo. subst. reflexivity. }
      rewrite Haudio. reflexivity.
    + unfold bind at 1. fold (field_or d "type" PyNone).
      destruct (py_eq_str (field_or d "type" PyNone) "audio");
        rewrite IH, <- ?app_assoc; reflexivity.
Qed.

(** X9: on a document that is an object whose streams are objects,
    [inspect_video] returns, having spawned the one inspect command.  The
    video and audio streams are the records tagged so, in document order,
    and other records are dropped; width, height and frame rate come from
    the first video stream, duration, bit rate and file size from the
    document, each with its default where the key is missing. *)
Theorem inspect_video_document
    (env : Env) (self : TrimXProcessor) (video_path : string)
    (h : list event) (out err : string) (fields : list (string * pyobj))
    (streams : list pyobj) :
  let log := h ++ [Printed [Lit "Inspecting video: "; Lit video_path]] in
  env.(spawn) log (inspect_command self video_path) true = Exited 0 out err ->
  env.(json_loads) out = Some (PyDict fields) ->
  py_iter (field_or fields "streams" (PyList [])) = Ok streams ->
  Forall is_dict streams ->
  exists info,
    inspect_video env self video_path h
    = (Ok info, log ++ [Ran (inspect_command self video_path) true]) /\
    info.(path) = video_path /\
    info.(video_streams) = filter (tagged "video") streams /\
    info.(audio_streams) = filter (tagged "audio") streams /\
    info.(duration) = field_or fields "duration" (PyFloat 0) /\
    info.(bit_rate) = field_or fields "bit_rate" (PyInt 0) /\
    info.(file_size) = field_or fields "file_size" (PyInt 0) /\
    let primary_video :=
      match filter (tagged "video") streams with
      | PyDict first :: _ => first
      | _ => []
      end in
    info.(width) = field_or primary_video "width" (PyInt 0) /\
    info.(height) = field_or primary_video "height" (PyInt 0) /\
    info.(frame_rate) = field_or primary_video "frame_rate" (PyFloat 0).
Proof.
  cbv zeta. intros Hspawn Hloads Hiter Hstreams.
  unfold inspect_video. unfold bind at 1, print, emit.
  unfold bind at 1. fold (inspect_command self video_path).
  rewrite run_command_run. cbv zeta.
  change (Lit (trimx_path self) ::
          [Lit "inspect"; Lit video_path; Lit "--format"; Lit "json";
           Lit "--show-streams"]) with (inspect_command self video_path).
  rewrite Hspawn. cbn [Z.eqb].
  unfold bind at 1. cbn [stdout loads]. rewrite Hloads. unfold ret at 1.
  unfold bind at 1, lift at 1. cbn [py_get].
  fold (field_or fields "streams" (PyList [])).
  unfold bind at 1, lift at 1. rewrite Hiter.
  unfold bind at 1. rewrite (classify_streams_filters streams Hstreams).
  cbn [app fst snd].
  assert (Hprimary :
    exists first,
      match filter (tagged "video") streams with
      | first :: _ => first
      | [] => PyDict []
      end = PyDict first /\
      match filter (tagged "video") streams with
      | PyDict first :: _ => first
      | _ => []
      end = first).
  { destruct (filter (tagged "video") streams) as [|v vs] eqn:Hfilter;
      [eauto|].
    assert (Hin : In v (filter (tagged "video") streams))
      by (rewrite Hfilter; left; reflexivity).
    apply filter_In in Hin as (Hin & _).
    rewrite Forall_forall in Hstreams.
    destruct (Hstreams v Hin) as (d & ->). eauto. }
  destruct Hprimary as (first & -> & ->).
  unfold bind, lift, ret. cbn [py_get]. eexists. split; [reflexivity|].
  cbn. unfold field_or. repeat split.
Qed.

(** X9 on a document with an audio, a video and a subtitle stream. *)
Lemma inspect_video_document_witness :
  exists info,
    fst (inspect_video (tool_printing movie_document) processor "in.mp4" [])
    = Ok info /\
    info.(video_streams)
    = [PyDict [("type", PyStr "video"); ("width", PyInt 640);
               ("height", PyInt 480)]] /\
    info.(audio_streams)
    = [PyDict [("type", PyStr "audio"); ("codec", PyStr "aac")]] /\
    info.(width) = PyInt 640 /\
    info.(height) = PyInt 480 /\
    info.(frame_rate) = PyFloat 0 /\
    info.(bit_rate) = PyInt 0.
Proof.
  destruct (inspect_video_document (tool_printing movie_document) processor
              "in.mp4" [] "<json>" ""
              [("duration", PyFloat 30);
               ("file_size", PyInt 1048576);
               ("streams",
                PyList [PyDict [("type", PyStr "audio");
                                ("codec", PyStr "aac")];
                        PyDict [("type", PyStr "video");
                                ("width", PyInt 640);
                                ("height", PyInt 480)];
                        PyDict [("type", PyStr "subtitle")]])]
              [PyDict [("type", PyStr "audio"); ("codec", PyStr "aac")];
               PyDict [("type", PyStr "video"); ("width", PyInt 640);
                       ("height", PyInt 480)];
               PyDict [("type", PyStr "subtitle")]]
              eq_refl eq_refl eq_refl
              ltac:(repeat constructor; eexists; reflexivity))
    as (info & Hrun & _ & Hvideo & Haudio & _ & Hrate & _ & Hw & Hh & Hfr).
  exists info. rewrite Hrun.
  repeat split; assumption.
Defined.

(** X10: when the inspect command exits with a status other than 0,
    [inspect_video] does not turn the failure into a value: the
    [CalledProcessError] reaches the caller with the status and the
    captured stderr, after the three lines of the report; nothing is
    parsed. *)
Theorem inspect_video_process_failure
    (env : Env) (self : TrimXProcessor) (video_path : string)
    (h : list event) (rc : Z) (out err : string) :
  let log := h ++ [Printed [Lit "Inspecting video: "; Lit video_path]] in
  env.(spawn) log (inspect_command self video_path) true = Exited rc out err ->
  rc <> 0%Z ->
  inspect_video env self video_path h
  = (Raise (CalledProcessError rc (PyStr err)),
     log ++ [Ran (inspect_command self video_path) true]
       ++ failure_report (inspect_command self video_path) rc (PyStr err)).
Proof.
  cbv zeta. intros Hspawn Hrc.
  unfold inspect_video. unfold bind at 1, print, emit.
  unfold bind at 1. fold (inspect_command self video_path).
  rewrite run_command_run. cbv zeta.
  change (Lit (trimx_path self) ::
          [Lit "inspect"; Lit video_path; Lit "--format"; Lit "json";
           Lit "--show-streams"]) with (inspect_command self video_path).
  rewrite Hspawn. apply Z.eqb_neq in Hrc. rewrite Hrc. reflexivity.
Qed.

(** X10 on a tool that exits with status 2. *)
Lemma inspect_video_process_failure_witness :
  fst (inspect_video tool_rejecting processor "in.mp4" [])
  = Raise (CalledProcessError 2 (PyStr "unsupported container")) /\
  spawned (snd (inspect_video tool_rejecting processor "in.mp4" []))
  = [inspect_command processor "in.mp4"].
Proof.
  rewrite (inspect_video_process_failure tool_rejecting processor "in.mp4" []
             2 "" "unsupported container" eq_refl ltac:(discriminate)).
  split; reflexivity.
Defined.

(** X11: when the inspect command exits with status 0 but its output is
    not a JSON object, [inspect_video] raises right after the spawn:
    [JSONDecodeError] when the output is not JSON at all, [AttributeError]
    when it is JSON of another kind, in both cases an exception other than
    the [CalledProcessError] of a failed process. *)
Theorem inspect_video_malformed_output
    (env : Env) (self : TrimXProcessor) (video_path : string)
    (h : list event) (out err : string) :
  let log := h ++ [Printed [Lit "Inspecting video: "; Lit video_path]] in
  env.(spawn) log (inspect_command self video_path) true = Exited 0 out err ->
  (forall fields, env.(json_loads) out <> Some (PyDict fields)) ->
  inspect_video env self video_path h
  = (Raise (match env.(json_loads) out with
            | None => JSONDecodeError
            | Some _ => AttributeError
            end),
     log ++ [Ran (inspect_command self video_path) true]).
Proof.
  cbv zeta. intros Hspawn Hshape.
  unfold inspect_video. unfold bind at 1, print, emit.
  unfold bind at 1. fold (inspect_command self video_path).
  rewrite run_command_run. cbv zeta.
  change (Lit (trimx_path self) ::
          [Lit "inspect"; Lit video_path; Lit "--format"; Lit "json";
           Lit "--show-streams"]) with (inspect_command self video_path).
  rewrite Hspawn. cbn [Z.eqb].
  unfold bind at 1. cbn [stdout loads].
  destruct (json_loads env out) as [data|]; [|reflexivity].
  destruct data; try reflexivity.
  exfalso. eapply Hshape. reflexivity.
Qed.

(** X11 on a tool whose output is not JSON. *)
Lemma inspect_video_malformed_output_witness :
  inspect_video tool_garbling processor "in.mp4" []
  = (Raise JSONDecodeError,
     [Printed [Lit "Inspecting video: "; Lit "in.mp4"];
      Ran (inspect_command processor "in.mp4") true]).
Proof.
  exact (inspect_video_malformed_output tool_garbling processor "in.mp4" []
           "not json" "" eq_refl ltac:(discriminate)).
Defined.

(** ** More on keyframes *)

(** [analyze_keyframes] case by case. *)
Lemma analyze_keyframes_run (env : Env) (self : TrimXProcessor)
    (video_path : string) (h : list event) :
  let log := h ++ [Printed [Lit "Analyzing keyframes: "; Lit video_path]] in
  let cmd := keyframes_command self video_path in
  analyze_keyframes env self video_path h
  = match env.(spawn) log cmd true with
    | Exited rc out err =>
        if (rc =? 0)%Z
        then (match env.(json_loads) out with
              | None => Raise JSONDecodeError
              | Some (PyDict fields) =>
                  Ok (field_or fields "keyframes" (PyList []))
              | Some _ => Raise AttributeError
              end,
              log ++ [Ran cmd true])
        else (Raise (CalledProcessError rc (PyStr err)),
              log ++ [Ran cmd true] ++ failure_report cmd rc (PyStr err))
    | NotFound =>
        (Raise FileNotFoundError,
         log ++ [Ran cmd true] ++ missing_report self)
    end.
Proof.
  cbv zeta. unfold analyze_keyframes. unfold bind at 1, print, emit.
  unfold bind at 1. rewrite run_command_run. cbv zeta.
  change (Lit (trimx_path self) ::
          [Lit "inspect"; Lit video_path; Lit "--show-keyframes";
           Lit "--format"; Lit "json"])
    with (keyframes_command self video_path).
  destruct (spawn env _ _ true) as [rc out err|]; [|reflexivity].
  destruct (rc =? 0)%Z; [|reflexivity].
  unfold bind, lift. cbn [stdout loads].
  destruct (json_loads env out) as [[| | | | | |fields]|]; reflexivity.
Qed.

(** X12: when the document of the keyframe inspection has no ["keyframes"]
    entry, or one that is empty or null (any value that counts as false),
    [find_optimal_cut_points] returns the desired window as it is, after
    the one inspect command and the line that says so. *)
Theorem find_optimal_cut_points_no_keyframes
    (env : Env) (self : TrimXProcessor) (video_path : string)
    (desired_start desired_end tolerance : float) (h : list event)
    (out err : string) (fields : list (string * pyobj)) :
  let log := h ++ [Printed [Lit "Analyzing keyframes: "; Lit video_path]] in
  env.(spawn) log (keyframes_command self video_path) true
  = Exited 0 out err ->
  env.(json_loads) out = Some (PyDict fields) ->
  truthy (field_or fields "keyframes" (PyList [])) = false ->
  find_optimal_cut_points env self video_path desired_start desired_end
    tolerance h
  = (Ok (PyFloat desired_start, PyFloat desired_end),
     log ++ [Ran (keyframes_command self video_path) true;
             Printed [Lit "No keyframes found, using desired times"]]).
Proof.
  cbv zeta. intros Hspawn Hloads Hfalsy.
  unfold find_optimal_cut_points, bind.
  rewrite analyze_keyframes_run. cbv zeta.
  rewrite Hspawn. cbn [Z.eqb]. rewrite Hloads.
  unfold optimal_cut_points. rewrite Hfalsy. cbn [negb].
  unfold bind, print, emit, ret. rewrite <- app_assoc. reflexivity.
Qed.

(** X12 on a document without a ["keyframes"] entry. *)
Lemma find_optimal_cut_points_no_keyframes_witness :
  find_optimal_cut_points (tool_printing audio_only_document) processor
    "in.mp4" 8.5 18.2 2 []
  = (Ok (PyFloat 8.5, PyFloat 18.2),
     [Printed [Lit "Analyzing keyframes: "; Lit "in.mp4"];
      Ran (keyframes_command processor "in.mp4") true;
      Printed [Lit "No keyframes found, using desired times"]]).
Proof.
  exact (find_optimal_cut_points_no_keyframes
           (tool_printing audio_only_document) processor "in.mp4"
           8.5%float 18.2%float 2%float [] "<json>" ""
           [("duration", PyFloat 12.5);
            ("bit_rate", PyInt 128000);
            ("streams", PyList [PyDict [("type", PyStr "audio");
                                        ("codec", PyStr "aac")]])]
           eq_refl eq_refl eq_refl).
Defined.



(** ** More on cut points *)

(** Evaluating the key of [min] logs nothing. *)
Lemma timestamp_distance_pure (desired : float) (k : pyobj) (h : list event) :
  timestamp_distance desired k h = (distance_of desired k, h).
Proof.
  unfold timestamp_distance, distance_of, bind, lift, ret.
  destruct (py_getitem k "timestamp") as [v|e]; [|reflexivity].
  destruct (py_sub_float v desired); reflexivity.
Qed.

(** The key is defined exactly on the records with a numeric timestamp. *)
Lemma distance_of_numeric (desired : float) (k : pyobj) (x : float) :
  distance_of desired k = Ok x ->
  exists v y, numeric_timestamp k v y /\ x = distance desired y.
Proof.
  unfold distance_of, py_getitem, py_sub_float.
  destruct k as [| | | | | |d]; try discriminate.
  destruct (dict_lookup "timestamp" d) as [v|] eqn:Hts; [|discriminate].
  destruct (py_number v) as [y|e] eqn:Hnum; [|discriminate].
  intros [= <-]. exists v, y. split; [|reflexivity].
  exists d. auto.
Qed.

Lemma numeric_distance_of (desired : float) (k v : pyobj) (x : float) :
  numeric_timestamp k v x ->
  distance_of desired k = Ok (distance desired x) /\
  py_getitem k "timestamp" = Ok v.
Proof.
  intros (d & -> & Hts & Hnum).
  unfold distance_of, py_getitem, py_sub_float. rewrite Hts, Hnum. auto.
Qed.

Lemma distance_of_error (desired : float) (k : pyobj) (e : exn) :
  distance_of desired k = Raise e -> selection_error e.
Proof.
  unfold distance_of, py_getitem, py_sub_float, selection_error.
  destruct k as [| | | | | |d]; try (intros [= <-]; auto).
  destruct (dict_lookup "timestamp" d) as [v|]; [|intros [= <-]; auto].
  destruct v as [|b|n|x|s|l|d']; cbn; try (intros [= <-]; auto);
    try discriminate.
  unfold float_of_int. destruct (is_infinity _); [|discriminate].
  intros [= <-]. auto.
Qed.

(** The scan of [min] with this key: it returns one of the items, or it
    raises what the key raises on the first item it is not defined on. *)
Lemma min_scan_returns (desired : float) (items : list pyobj) :
  Forall (fun k => exists x, distance_of desired k = Ok x) items ->
  forall (k0 : pyobj) (minval : float),
  exists k,
    In k (k0 :: items) /\
    forall h, min_scan (timestamp_distance desired) items k0 minval h
              = (Ok k, h).
Proof.
  induction 1 as [|k1 items (x & Hx) _ IH]; intros k0 minval.
  - exists k0. split; [left; reflexivity | reflexivity].
  - destruct (x <? minval)%float eqn:Hlt.
    + destruct (IH k1 x) as (k & Hin & Hrun). exists k. split.
      * right. exact Hin.
      * intros h. cbn [min_scan]. unfold bind.
        rewrite timestamp_distance_pure, Hx, Hlt. apply Hrun.
    + destruct (IH k0 minval) as (k & Hin & Hrun). exists k. split.
      * destruct Hin as [->|Hin]; [left; reflexivity | right; right; exact Hin].
      * intros h. cbn [min_scan]. unfold bind.
        rewrite timestamp_distance_pure, Hx, Hlt. apply Hrun.
Qed.

Lemma min_scan_raises (desired : float) (before : list pyobj) (bad : pyobj)
    (after : list pyobj) (e : exn) :
  Forall (fun k => exists x, distance_of desired k = Ok x) before ->
  distance_of desired bad = Raise e ->
  forall (k0 : pyobj) (minval : float) (h : list event),
    min_scan (timestamp_distance desired) (before ++ bad :: after) k0 minval h
    = (Raise e, h).
Proof.
  intros Hbefore Hbad.
  induction Hbefore as [|k1 before (x & Hx) _ IH]; intros k0 minval h;
    cbn [app min_scan]; unfold bind; rewrite timestamp_distance_pure.
  - rewrite Hbad. reflexivity.
  - rewrite Hx. destruct (x <? minval)%float; apply IH.
Qed.

(** A list of items is all records the key is defined on, or has a first
    item on which the key raises. *)
Lemma first_ill_formed (desired : float) (items : list pyobj) :
  Forall (fun k => exists x, distance_of desired k = Ok x) items \/
  exists before bad after e,
    items = before ++ bad :: after /\
    Forall (fun k => exists x, distance_of desired k = Ok x) before /\
    distance_of desired bad = Raise e.
Proof.
  induction items as [|k items IH]; [left; constructor|].
  destruct (distance_of desired k) as [x|e] eqn:Hk.
  - destruct IH as [Hall|(before & bad & after & e & -> & Hbefore & Hbad)].
    + left. constructor; eauto.
    + right. exists (k :: before), bad, after, e.
      repeat split; [constructor; eauto | exact Hbad].
  - right. exists [], k, items, e. repeat split; [constructor | exact Hk].
Qed.

(** [min(keyframes, key=...)] on any object: an item the key is defined on,
    or an exception and nothing else. *)
Lemma py_min_cases (desired : float) (keyframes : pyobj) :
  (exists items k,
      py_iter keyframes = Ok items /\
      In k items /\
      (exists x, distance_of desired k = Ok x) /\
      forall h, py_min keyframes (timestamp_distance desired) h = (Ok k, h)) \/
  (exists e,
      (selection_error e \/ (e = ValueError /\ py_iter keyframes = Ok [])) /\
      forall h, py_min keyframes (timestamp_distance desired) h = (Raise e, h)).
Proof.
  unfold py_min, bind at 1, lift.
  destruct (py_iter keyframes) as [items|e] eqn:Hiter.
  - destruct items as [|k0 items].
    + right. exists ValueError. split; [right; auto | reflexivity].
    + destruct (distance_of desired k0) as [x0|e] eqn:Hk0.
      * destruct (first_ill_formed desired items)
          as [Hall|(before & bad & after & e & -> & Hbefore & Hbad)].
        -- destruct (min_scan_returns desired items Hall k0 x0)
             as (k & Hin & Hrun).
           left. exists (k0 :: items), k. split; [reflexivity|].
           split; [exact Hin|]. split.
           ++ destruct Hin as [<-|Hin]; [eauto|].
              rewrite Forall_forall in Hall. apply Hall. exact Hin.
           ++ intros h. unfold bind.
              rewrite timestamp_distance_pure, Hk0. apply Hrun.
        -- right. exists e. split.
           ++ left. eapply distance_of_error. exact Hbad.
           ++ intros h. unfold bind. rewrite timestamp_distance_pure, Hk0.
              apply min_scan_raises; assumption.
      * right. exists e. split.
        -- left. eapply distance_of_error. exact Hk0.
        -- intros h. unfold bind. rewrite timestamp_distance_pure, Hk0.
           reflexivity.
  - right. exists e. split; [|reflexivity].
    left. destruct keyframes; cbn in Hiter; try discriminate;
      injection Hiter as <-; left; reflexivity.
Qed.

(** A truthy object that can be iterated is not empty. *)
Lemma truthy_not_empty (keyframes : pyobj) :
  truthy keyframes = true -> py_iter keyframes <> Ok [].
Proof.
  destruct keyframes as [| | | |s|l|d]; cbn; try discriminate.
  - destruct s; [discriminate|]. cbn. discriminate.
  - destruct l; discriminate.
  - destruct d; discriminate.
Qed.

(** Every run of [optimal_cut_points]: the desired window when the
    keyframes count as false; or two keyframes with numeric timestamps, one
    per boundary, and the window they give; or an exception. *)
Lemma optimal_cut_points_cases (keyframes : pyobj)
    (desired_start desired_end tolerance : float) :
  (truthy keyframes = false /\
   forall h,
     optimal_cut_points keyframes desired_start desired_end tolerance h
     = (Ok (PyFloat desired_start, PyFloat desired_end),
        h ++ [Printed [Lit "No keyframes found, using desired times"]])) \/
  (exists items k_start v_start x_start k_end v_end x_end,
      py_iter keyframes = Ok items /\
      In k_start items /\ numeric_timestamp k_start v_start x_start /\
      In k_end items /\ numeric_timestamp k_end v_end x_end /\
      let optimal_start :=
        if (distance desired_start x_start <=? tolerance)%float
        then v_start else PyFloat desired_start in
      let optimal_end :=
        if (distance desired_end x_end <=? tolerance)%float
        then v_end else PyFloat desired_end in
      forall h,
        optimal_cut_points keyframes desired_start desired_end tolerance h
        = (Ok (optimal_start, optimal_end),
           h ++ [optimal_message optimal_start optimal_end])) \/
  (exists e,
      selection_error e /\
      forall h,
        optimal_cut_points keyframes desired_start desired_end tolerance h
        = (Raise e, h)).
Proof.
  unfold optimal_cut_points.
  destruct (truthy keyframes) eqn:Htruthy; cbn [negb];
    [|left; split; [reflexivity | intros h; reflexivity]].
  right.
  assert (Hvalue : forall e,
            selection_error e \/ (e = ValueError /\ py_iter keyframes = Ok []) ->
            selection_error e).
  { intros e [He|(_ & Hempty)]; [exact He|].
    exfalso. exact (truthy_not_empty keyframes Htruthy Hempty). }
  destruct (py_min_cases desired_start keyframes)
    as [(items & ks & Hiter & Hin_s & (ds & Hds) & Hmin_s)|(e & He & Hmin_s)].
  - destruct (py_min_cases desired_end keyframes)
      as [(items' & ke & Hiter' & Hin_e & (de & Hde) & Hmin_e)|(e & He & Hmin_e)].
    + rewrite Hiter in Hiter'. injection Hiter' as <-.
      destruct (distance_of_numeric desired_start ks ds Hds)
        as (vs & xs & Hks & ->).
      destruct (distance_of_numeric desired_end ke de Hde)
        as (ve & xe & Hke & ->).
      left. exists items, ks, vs, xs, ke, ve, xe.
      repeat (split; [assumption|]).
      cbv zeta. intros h.
      destruct (numeric_distance_of desired_start ks vs xs Hks) as (_ & Hgs).
      destruct (numeric_distance_of desired_end ke ve xe Hke) as (_ & Hge).
      unfold bind at 1. rewrite Hmin_s.
      unfold bind at 1. rewrite Hmin_e.
      unfold bind at 1. rewrite timestamp_distance_pure, Hds.
      unfold bind at 1, optimal_message.
      destruct (distance desired_start xs <=? tolerance)%float;
        unfold lift, ret, bind at 1; rewrite ?Hgs;
        rewrite timestamp_distance_pure, Hde; unfold bind at 1;
        destruct (distance desired_end xe <=? tolerance)%float;
        rewrite ?Hge; reflexivity.
    + right. exists e. split; [apply Hvalue; exact He|].
      intros h. unfold bind at 1. rewrite Hmin_s.
      unfold bind at 1. rewrite Hmin_e. reflexivity.
  - right. exists e. split; [apply Hvalue; exact He|].
    intros h. unfold bind at 1. rewrite Hmin_s. reflexivity.
Qed.

(** A distance is never below a negative tolerance, nor within a tolerance
    that is not a number. *)
Lemma abs_leb_tolerance (x tolerance : float) :
  (abs x <=? tolerance)%float = true ->
  (tolerance <? 0)%float = false /\ is_nan tolerance = false.
Proof.
  rewrite leb_spec, ltb_spec, abs_spec.
  change (Prim2SF 0) with (S754_zero false).
  intros Hleb. split.
  - revert Hleb. unfold SFleb, SFltb.
    destruct (Prim2SF x) as [sx|sx| |sx mx ex],
      (Prim2SF tolerance) as [st|st| |st mt et]; cbn; try congruence;
      destruct st; cbn; congruence.
  - destruct (is_nan tolerance) eqn:Hnan; [|reflexivity].
    exfalso. revert Hleb. unfold Prim2SF at 2. rewrite Hnan.
    unfold SFleb. destruct (SFabs _); discriminate.
Qed.

(** X14: whenever [optimal_cut_points] returns, each boundary is the
    desired time itself, or the timestamp of one of the keyframes, a
    number at most the tolerance away from the desired time.  A boundary
    is never moved by more than the tolerance, and never to a time that is
    not a keyframe. *)
Theorem optimal_cut_points_within_tolerance (keyframes : pyobj)
    (desired_start desired_end tolerance : float) (h h' : list event)
    (optimal_start optimal_end : pyobj) :
  optimal_cut_points keyframes desired_start desired_end tolerance h
  = (Ok (optimal_start, optimal_end), h') ->
  let moved (desired : float) (optimal : pyobj) :=
    exists items k x,
      py_iter keyframes = Ok items /\ In k items /\
      numeric_timestamp k optimal x /\
      (distance desired x <=? tolerance)%float = true in
  (optimal_start = PyFloat desired_start \/ moved desired_start optimal_start)
  /\
  (optimal_end = PyFloat desired_end \/ moved desired_end optimal_end).
Proof.
  intros Hrun. cbv zeta.
  destruct (optimal_cut_points_cases keyframes desired_start desired_end
              tolerance)
    as [(_ & Hsame)|[(items & ks & vs & xs & ke & ve & xe & Hiter & Hin_s &
                      Hks & Hin_e & Hke & Hmoved)|(e & _ & Hraise)]].
  - rewrite Hsame in Hrun. injection Hrun as <- <- _. auto.
  - cbv zeta in Hmoved. rewrite Hmoved in Hrun. injection Hrun as <- <- _.
    split.
    + destruct (distance desired_start xs <=? tolerance)%float eqn:Hs;
        [right; exists items, ks, xs; auto | left; reflexivity].
    + destruct (distance desired_end xe <=? tolerance)%float eqn:He;
        [right; exists items, ke, xe; auto | left; reflexivity].
  - rewrite Hraise in Hrun. discriminate.
Qed.

(** X14 on integer timestamps 2, 9 and 20: the start moves to the integer
    9, which is within 2.0 of 8.5, and the end stays at 12.5. *)
Lemma optimal_cut_points_within_tolerance_witness :
  let keyframes :=
    PyList [PyDict [("timestamp", PyInt 2)]; PyDict [("timestamp", PyInt 9)];
            PyDict [("timestamp", PyInt 20)]] in
  optimal_cut_points keyframes 8.5 12.5 2 []
  = (Ok (PyInt 9, PyFloat 12.5),
     [optimal_message (PyInt 9) (PyFloat 12.5)]) /\
  exists items k x,
    py_iter keyframes = Ok items /\ In k items /\
    numeric_timestamp k (PyInt 9) x /\
    (distance 8.5 x <=? 2)%float = true.
Proof.
  cbv zeta.
  destruct (optimal_cut_points_within_tolerance
              (PyList [PyDict [("timestamp", PyInt 2)];
                       PyDict [("timestamp", PyInt 9)];
                       PyDict [("timestamp", PyInt 20)]])
              8.5%float 12.5%float 2%float [] _ (PyInt 9) (PyFloat 12.5)
              eq_refl) as ([Hstart|Hstart] & _).
  - discriminate Hstart.
  - split; [reflexivity | exact Hstart].
Defined.

(** X15: with a tolerance that is negative or not a number, no boundary
    is ever moved: whenever [optimal_cut_points] returns, it returns the
    desired window as it is. *)
Theorem optimal_cut_points_no_tolerance (keyframes : pyobj)
    (desired_start desired_end tolerance : float) (h h' : list event)
    (optimal_start optimal_end : pyobj) :
  optimal_cut_points keyframes desired_start desired_end tolerance h
  = (Ok (optimal_start, optimal_end), h') ->
  (tolerance <? 0)%float = true \/ is_nan tolerance = true ->
  optimal_start = PyFloat desired_start /\ optimal_end = PyFloat desired_end.
Proof.
  intros Hrun Htol.
  assert (Hfar : forall desired x,
            (distance desired x <=? tolerance)%float = false).
  { intros desired x.
    destruct (distance desired x <=? tolerance)%float eqn:Hleb;
      [|reflexivity].
    apply abs_leb_tolerance in Hleb as (Hneg & Hnan).
    destruct Htol; congruence. }
  destruct (optimal_cut_points_cases keyframes desired_start desired_end
              tolerance)
    as [(_ & Hsame)|[(items & ks & vs & xs & ke & ve & xe & Hiter & Hin_s &
                      Hks & Hin_e & Hke & Hmoved)|(e & _ & Hraise)]].
  - rewrite Hsame in Hrun. injection Hrun as <- <- _. auto.
  - cbv zeta in Hmoved. rewrite Hmoved, !Hfar in Hrun.
    injection Hrun as <- <- _. auto.
  - rewrite Hraise in Hrun. discriminate.
Qed.

(** X15 with tolerance -1.0 and a keyframe exactly on the desired start. *)
Lemma optimal_cut_points_no_tolerance_witness :
  optimal_cut_points (PyList [keyframe 8.5; keyframe 20]) 8.5 18.2 (-1) []
  = (Ok (PyFloat 8.5, PyFloat 18.2),
     [optimal_message (PyFloat 8.5) (PyFloat 18.2)]) /\
  (-1 <? 0)%float = true.
Proof.
  split; [|reflexivity].
  destruct (optimal_cut_points_no_tolerance
              (PyList [keyframe 8.5; keyframe 20]) 8.5%float 18.2%float
              (-1)%float [] _ _ _ eq_refl (or_introl eq_refl)) as (_ & _).
  reflexivity.
Defined.

(** X16: the first keyframe that is not a record with a numeric timestamp
    decides what [optimal_cut_points] raises, and nothing is printed: a
    record without ["timestamp"] is a [KeyError], an item that is not a
    record or a timestamp that is not a number is a [TypeError], an
    integer too large for a float is an [OverflowError]. *)
Theorem optimal_cut_points_ill_formed (keyframes : pyobj)
    (before after : list pyobj) (bad : pyobj) (e : exn)
    (desired_start desired_end tolerance : float) (h : list event) :
  py_iter keyframes = Ok (before ++ bad :: after) ->
  Forall (fun k => exists v x, numeric_timestamp k v x) before ->
  py_getitem bad "timestamp" = Raise e \/
  (exists v, py_getitem bad "timestamp" = Ok v /\ py_number v = Raise e) ->
  optimal_cut_points keyframes desired_start desired_end tolerance h
  = (Raise e, h) /\
  selection_error e.
Proof.
  intros Hiter Hbefore Hbad.
  assert (Hkey : distance_of desired_start bad = Raise e).
  { unfold distance_of, py_sub_float.
    destruct Hbad as [->|(v & -> & ->)]; reflexivity. }
  assert (Hdefined : Forall (fun k => exists x,
                               distance_of desired_start k = Ok x) before).
  { eapply Forall_impl; [|exact Hbefore]. intros k (v & x & Hk).
    destruct (numeric_distance_of desired_start k v x Hk) as (-> & _). eauto. }
  split; [|eapply distance_of_error; exact Hkey].
  assert (Htruthy : truthy keyframes = true).
  { destruct keyframes as [| | | |s|l|d]; cbn in Hiter; try discriminate;
      injection Hiter as Hitems; cbn.
    - destruct s; [destruct before; discriminate | reflexivity].
    - subst l. destruct before; reflexivity.
    - destruct d; [destruct before; discriminate | reflexivity]. }
  unfold optimal_cut_points. rewrite Htruthy. cbn [negb].
  unfold bind at 1, py_min. unfold bind at 1, lift. rewrite Hiter.
  destruct Hdefined as [|k0 rest (x0 & Hx0) Hrest]; cbn [app];
    unfold bind at 1; rewrite timestamp_distance_pure.
  - rewrite Hkey. reflexivity.
  - rewrite Hx0, (min_scan_raises desired_start rest bad after e Hrest Hkey).
    reflexivity.
Qed.

(** X16 on a list whose second record has no timestamp. *)
Lemma optimal_cut_points_ill_formed_witness :
  optimal_cut_points
    (PyList [keyframe 2; PyDict [("time", PyFloat 9)]; keyframe 20])
    8.5 18.2 2 []
  = (Raise KeyError, []) /\
  selection_error KeyError.
Proof.
  apply (optimal_cut_points_ill_formed
           (PyList [keyframe 2; PyDict [("time", PyFloat 9)]; keyframe 20])
           [keyframe 2] [keyframe 20] (PyDict [("time", PyFloat 9)]) KeyError
           8.5%float 18.2%float 2%float []).
  - reflexivity.
  - constructor; [|constructor].
    exists (PyFloat 2), 2%float, [("timestamp", PyFloat 2)]. auto.
  - left. reflexivity.
Defined.

(** X17: choosing the cut points spawns nothing.  For every object given
    as keyframes, [optimal_cut_points] either returns after printing one
    line, or raises a [TypeError], [KeyError] or [OverflowError] having
    printed nothing; it never raises the [ValueError] of [min] on an empty
    sequence.  So [find_optimal_cut_points] spawns one process in all, the
    keyframe inspection. *)
Theorem optimal_cut_points_effects (keyframes : pyobj)
    (desired_start desired_end tolerance : float) (h : list event) :
  let run := optimal_cut_points keyframes desired_start desired_end
               tolerance h in
  spawned (snd run) = spawned h /\
  match fst run with
  | Ok _ => exists msg, snd run = h ++ [Printed msg]
  | Raise e => selection_error e /\ snd run = h
  end /\
  forall (env : Env) (self : TrimXProcessor) (video_path : string),
    spawned (snd (find_optimal_cut_points env self video_path desired_start
                    desired_end tolerance h))
    = spawned h ++ [keyframes_command self video_path].
Proof.
  assert (Hbody : forall keyframes0 h0,
    let run := optimal_cut_points keyframes0 desired_start desired_end
                 tolerance h0 in
    spawned (snd run) = spawned h0 /\
    match fst run with
    | Ok _ => exists msg, snd run = h0 ++ [Printed msg]
    | Raise e => selection_error e /\ snd run = h0
    end).
  { intros keyframes0 h0. cbv zeta.
    destruct (optimal_cut_points_cases keyframes0 desired_start desired_end
                tolerance)
      as [(_ & Hsame)|[(items & ks & vs & xs & ke & ve & xe & _ & _ &
                        _ & _ & _ & Hmoved)|(e & He & Hraise)]].
    - rewrite Hsame. cbn [fst snd]. rewrite spawned_app. cbn.
      rewrite app_nil_r. eauto.
    - cbv zeta in Hmoved. rewrite Hmoved. cbn [fst snd].
      rewrite spawned_app. cbn. rewrite app_nil_r.
      unfold optimal_message. eauto.
    - rewrite Hraise. cbn [fst snd]. auto. }
  cbv zeta. split; [apply Hbody|]. split; [apply Hbody|].
  intros env self video_path.
  unfold find_optimal_cut_points, bind.
  rewrite analyze_keyframes_run. cbv zeta.
  destruct (spawn env _ _ true) as [rc out err|].
  - destruct (rc =? 0)%Z.
    + destruct (json_loads env out) as [[| | | | | |fields]|]; cbn [snd];
        try (rewrite !spawned_app; cbn; rewrite app_nil_r; reflexivity).
      destruct (Hbody (field_or fields "keyframes" (PyList []))
                  ((h ++ [Printed [Lit "Analyzing keyframes: ";
                                   Lit video_path]]) ++
                   [Ran (keyframes_command self video_path) true]))
        as (Hspawned & _).
      cbv zeta in Hspawned. rewrite Hspawned, !spawned_app. cbn.
      rewrite app_nil_r. reflexivity.
    + cbn [snd]. rewrite !spawned_app. cbn. rewrite app_nil_r. reflexivity.
  - cbn [snd]. rewrite !spawned_app. cbn. rewrite app_nil_r. reflexivity.
Qed.

(** The scan of [min] over records with numeric timestamps keeps the first
    nearest one; [timestamps] pairs each record's timestamp as it is in the
    document with the float it stands for. *)
Lemma min_scan_first_nearest_numeric (desired : float) (items : list pyobj) :
  forall (timestamps : list (pyobj * float)),
    Forall2 (fun k vx => numeric_timestamp k (fst vx) (snd vx)) items
      timestamps ->
    Forall (fun vx => is_nan (distance desired (snd vx)) = false) timestamps ->
    forall (seen_before seen_after : list (pyobj * float)) (k0 : pyobj)
           (vx0 : pyobj * float) (h : list event),
      numeric_timestamp k0 (fst vx0) (snd vx0) ->
      is_nan (distance desired (snd vx0)) = false ->
      first_nearest desired (map snd seen_before) (snd vx0)
        (map snd seen_after) ->
      exists k before vx after,
        min_scan (timestamp_distance desired) items k0
          (distance desired (snd vx0)) h
        = (Ok k, h) /\
        numeric_timestamp k (fst vx) (snd vx) /\
        seen_before ++ vx0 :: seen_after ++ timestamps = before ++ vx :: after /\
        first_nearest desired (map snd before) (snd vx) (map snd after).
Proof.
  induction items as [|k1 items IH]; intros timestamps Htyped Hnum;
    inversion Htyped as [|? vx1 ? timestamps' Hk1 Hrest]; subst;
    intros seen_before seen_after k0 vx0 h Hk0 Hnum0 (Hbefore & Hafter).
  - exists k0, seen_before, vx0, seen_after. cbn. unfold ret.
    rewrite app_nil_r. repeat split; assumption.
  - apply Forall_cons_iff in Hnum as (Hnum1 & Hnum).
    destruct (numeric_distance_of desired k1 (fst vx1) (snd vx1) Hk1)
      as (Hkey1 & _).
    cbn [min_scan]. unfold bind at 1.
    rewrite timestamp_distance_pure, Hkey1.
    destruct (distance desired (snd vx1) <? distance desired (snd vx0))%float
      eqn:Hlt.
    + destruct (IH timestamps' Hrest Hnum (seen_before ++ vx0 :: seen_after)
                  [] k1 vx1 h Hk1 Hnum1)
        as (k & before & vx & after & Hrun & Hk & Hsplit & Hnear).
      { split; [|constructor].
        rewrite map_app. apply Forall_app. split; [|constructor].
        - eapply Forall_impl; [|exact Hbefore]. cbn. intros u Hu.
          eapply ltb_leb_trans; [exact Hlt | apply ltb_leb; exact Hu].
        - exact Hlt.
        - eapply Forall_impl; [|exact Hafter]. cbn. intros u Hu.
          eapply ltb_leb_trans; [exact Hlt | exact Hu]. }
      exists k, before, vx, after. repeat split; try assumption;
        try apply Hnear.
      rewrite <- Hsplit, <- !app_assoc. reflexivity.
    + destruct (IH timestamps' Hrest Hnum seen_before (seen_after ++ [vx1])
                  k0 vx0 h Hk0 Hnum0)
        as (k & before & vx & after & Hrun & Hk & Hsplit & Hnear).
      { split; [exact Hbefore|].
        rewrite map_app. apply Forall_app. split; [exact Hafter|].
        constructor; [|constructor].
        apply ltb_false_leb; assumption. }
      exists k, before, vx, after. repeat split; try assumption;
        try apply Hnear.
      rewrite <- Hsplit, <- !app_assoc. reflexivity.
Qed.

Lemma py_min_first_nearest_numeric (desired : float) (ks : list pyobj)
    (timestamps : list (pyobj * float)) (h : list event) :
  ks <> [] ->
  Forall2 (fun k vx => numeric_timestamp k (fst vx) (snd vx)) ks timestamps ->
  Forall (fun vx => is_finite (snd vx) = true) timestamps ->
  is_finite desired = true ->
  exists k before vx after,
    py_min (PyList ks) (timestamp_distance desired) h = (Ok k, h) /\
    numeric_timestamp k (fst vx) (snd vx) /\
    timestamps = before ++ vx :: after /\
    first_nearest desired (map snd before) (snd vx) (map snd after).
Proof.
  intros Hne Htyped Hfinite Hdesired.
  assert (Hnum : Forall (fun vx => is_nan (distance desired (snd vx)) = false)
                   timestamps).
  { eapply Forall_impl; [|exact Hfinite]. intros vx Hvx.
    apply finite_distance_number; assumption. }
  destruct Htyped as [|k0 vx0 ks timestamps Hk0 Hrest]; [contradiction|].
  apply Forall_cons_iff in Hnum as (Hnum0 & Hnum).
  destruct (numeric_distance_of desired k0 (fst vx0) (snd vx0) Hk0)
    as (Hkey0 & _).
  cbv beta iota delta [py_min bind lift py_iter].
  rewrite timestamp_distance_pure, Hkey0.
  destruct (min_scan_first_nearest_numeric desired ks timestamps Hrest Hnum
              [] [] k0 vx0 h Hk0 Hnum0)
    as (k & before & vx & after & Hrun & Hk & Hsplit & Hnear).
  { split; constructor. }
  exists k, before, vx, after. auto.
Qed.

(** X18: timestamps that are JSON integers or booleans take part in the
    choice by the float they convert to, and come back as they are in the
    document.  On a non-empty list of records with numeric timestamps
    (finite, for finite desired times), each boundary is the timestamp of
    the first nearest keyframe, unconverted, when its distance is at most
    the tolerance, and the desired time otherwise. *)
Theorem optimal_cut_points_nearest_numeric
    (ks : list pyobj) (timestamps : list (pyobj * float))
    (desired_start desired_end tolerance : float) (h : list event) :
  ks <> [] ->
  Forall2 (fun k vx => numeric_timestamp k (fst vx) (snd vx)) ks timestamps ->
  Forall (fun vx => is_finite (snd vx) = true) timestamps ->
  is_finite desired_start = true ->
  is_finite desired_end = true ->
  exists before_start at_start after_start before_end at_end after_end,
    timestamps = before_start ++ at_start :: after_start /\
    first_nearest desired_start (map snd before_start) (snd at_start)
      (map snd after_start) /\
    timestamps = before_end ++ at_end :: after_end /\
    first_nearest desired_end (map snd before_end) (snd at_end)
      (map snd after_end) /\
    fst (optimal_cut_points (PyList ks) desired_start desired_end tolerance h)
    = Ok (if (distance desired_start (snd at_start) <=? tolerance)%float
          then fst at_start else PyFloat desired_start,
          if (distance desired_end (snd at_end) <=? tolerance)%float
          then fst at_end else PyFloat desired_end).
Proof.
  intros Hne Htyped Hfinite Hstart Hend.
  destruct (py_min_first_nearest_numeric desired_start ks timestamps h Hne
              Htyped Hfinite Hstart)
    as (ks_ & before_s & vx_s & after_s & Hmin_s & Hks & Hsplit_s & Hnear_s).
  destruct (py_min_first_nearest_numeric desired_end ks timestamps h Hne
              Htyped Hfinite Hend)
    as (ke & before_e & vx_e & after_e & Hmin_e & Hke & Hsplit_e & Hnear_e).
  exists before_s, vx_s, after_s, before_e, vx_e, after_e.
  repeat (split; [assumption|]).
  destruct (numeric_distance_of desired_start ks_ _ _ Hks) as (Hds & Hgs).
  destruct (numeric_distance_of desired_end ke _ _ Hke) as (Hde & Hge).
  unfold optimal_cut_points.
  destruct ks as [|k ks]; [contradiction|]. cbn [truthy negb].
  unfold bind at 1. rewrite Hmin_s.
  unfold bind at 1. rewrite Hmin_e.
  unfold bind at 1. rewrite timestamp_distance_pure, Hds.
  unfold bind at 1.
  destruct (distance desired_start (snd vx_s) <=? tolerance)%float;
    unfold lift, ret, bind at 1; rewrite ?Hgs;
    rewrite timestamp_distance_pure, Hde; unfold bind at 1;
    destruct (distance desired_end (snd vx_e) <=? tolerance)%float;
    rewrite ?Hge; reflexivity.
Qed.

(** X18 on the integer timestamps 2, 9 and 20 and a boolean: the window
    8.5 to 18.2 is moved to the integers 9 and 20. *)
Lemma optimal_cut_points_nearest_numeric_witness :
  let timestamps :=
    [(PyInt 2, 2%float); (PyInt 9, 9%float); (PyBool true, 1%float);
     (PyInt 20, 20%float)] in
  let ks := map (fun vx => PyDict [("timestamp", fst vx)]) timestamps in
  fst (optimal_cut_points (PyList ks) 8.5 18.2 2 [])
  = Ok (PyInt 9, PyInt 20) /\
  exists before_start at_start after_start before_end at_end after_end,
    timestamps = before_start ++ at_start :: after_start /\
    first_nearest 8.5 (map snd before_start) (snd at_start)
      (map snd after_start) /\
    timestamps = before_end ++ at_end :: after_end /\
    first_nearest 18.2 (map snd before_end) (snd at_end)
      (map snd after_end) /\
    fst (optimal_cut_points (PyList ks) 8.5 18.2 2 [])
    = Ok (if (distance 8.5 (snd at_start) <=? 2)%float
          then fst at_start else PyFloat 8.5,
          if (distance 18.2 (snd at_end) <=? 2)%float
          then fst at_end else PyFloat 18.2).
Proof.
  cbv zeta. split; [reflexivity|].
  apply (optimal_cut_points_nearest_numeric
           (map (fun vx => PyDict [("timestamp", fst vx)])
              [(PyInt 2, 2%float); (PyInt 9, 9%float); (PyBool true, 1%float);
               (PyInt 20, 20%float)])
           [(PyInt 2, 2%float); (PyInt 9, 9%float); (PyBool true, 1%float);
            (PyInt 20, 20%float)]
           8.5%float 18.2%float 2%float []).
  - discriminate.
  - repeat constructor; (eexists; repeat split; reflexivity).
  - repeat constructor.
  - reflexivity.
  - reflexivity.
Defined.

(** ** What the calls do in every case *)





(** X20: when the clip command exits with a status other than 0,
    [extract_clip] answers [False] after the report of [run_command]: the
    command line joined by spaces, the status, and [None] for the error
    output, since the streams of the process are not captured. *)
Theorem extract_clip_failure_report
    (env : Env) (self : TrimXProcessor) (video_path output_path mode : string)
    (start_time end_time : float) (h : list event)
    (rc : Z) (out err : string) :
  let log :=
    h ++ [Printed [Lit "Extracting clip: "; Str (PyFloat start_time);
                   Lit "s to "; Str (PyFloat end_time); Lit "s"]] in
  let cmd :=
    [Lit self.(trimx_path); Lit "clip"; Lit video_path;
     Lit "--start"; Str (PyFloat start_time);
     Lit "--end"; Str (PyFloat end_time);
     Lit "--mode"; Lit mode; Lit "--output"; Lit output_path;
     Lit "--overwrite"; Lit "yes"] in
  env.(spawn) log cmd false = Exited rc out err ->
  rc <> 0%Z ->
  extract_clip env self video_path start_time end_time output_path mode
    None h
  = (Ok false,
     log ++ [Ran cmd false;
             Printed (Lit "Error running command: " :: join (Lit " ") cmd);
             Printed [Lit "Return code: "; Str (PyInt rc)];
             Printed [Lit "Error output: "; Str PyNone]]).
Proof.
  cbv zeta. intros Hspawn Hrc.
  unfold extract_clip. unfold bind at 1, print, emit. cbn [optional_int truthy].
  unfold try_except, bind at 1. rewrite run_command_run. cbv zeta.
  cbn [app]. rewrite Hspawn. apply Z.eqb_neq in Hrc. rewrite Hrc.
  unfold ret, failure_report. rewrite <- app_assoc. reflexivity.
Qed.

(** X20 on the sample tool that exits with status 2. *)
Lemma extract_clip_failure_report_witness :
  snd (extract_clip tool_rejecting processor "in.mp4" 5 15 "out.mp4" "auto"
         None [])
  = [Printed [Lit "Extracting clip: "; Str (PyFloat 5); Lit "s to ";
              Str (PyFloat 15); Lit "s"];
     Ran [Lit "trimx"; Lit "clip"; Lit "in.mp4"; Lit "--start";
          Str (PyFloat 5); Lit "--end"; Str (PyFloat 15); Lit "--mode";
          Lit "auto"; Lit "--output"; Lit "out.mp4"; Lit "--overwrite";
          Lit "yes"] false;
     Printed [Lit "Error running command: "; Lit "trimx"; Lit " ";
              Lit "clip"; Lit " "; Lit "in.mp4"; Lit " "; Lit "--start";
              Lit " "; Str (PyFloat 5); Lit " "; Lit "--end"; Lit " ";
              Str (PyFloat 15); Lit " "; Lit "--mode"; Lit " "; Lit "auto";
              Lit " "; Lit "--output"; Lit " "; Lit "out.mp4"; Lit " ";
              Lit "--overwrite"; Lit " "; Lit "yes"];
     Printed [Lit "Return code: "; Str (PyInt 2)];
     Printed [Lit "Error output: "; Str PyNone]].
Proof.
  rewrite (extract_clip_failure_report tool_rejecting processor "in.mp4"
             "out.mp4" "auto" 5%float 15%float [] 2 ""
             "unsupported container" eq_refl ltac:(discriminate)).
  reflexivity.
Defined.
